(** * Tomato leaf classifier service: weight loader and request handlers

    A shallow embedding of [main.py]: the HDF5 weight loader that runs at
    import time, the [/health] handler and the [/api/analyze] handler.

    Conventions.
    - A Python [str] is a Rocq [string] holding its UTF-8 encoding; a Python
      [bytes] is a [list byte].
    - A Python exception is a value of [exn]; code that can raise returns a
      [result]; code that also mutates the model or prints runs in the
      state-and-exception monad [M] over a [world].
    - The model is a store of layer objects addressed by position; the loop
      [for layer in model.layers] walks the positions in order.
    - Numbers that Python holds as floats are rationals ([Q]).  The values
      that reach a response are exact in this reading: a float32 probability
      times 100 is exact in a float64, and [round(x, 2)] prints as the
      two-decimal number nearest to [x], ties to even.
    - A weight is a floating-point value ([spec_float]: a signed binary
      fraction, a signed zero, an infinity or NaN); the variables of a layer
      are float32, and an array assigned to them is converted to float32
      first. *)

From stdpp Require Import base list strings gmap.
From Stdlib Require Import QArith Qround Qabs Lqa.
From Stdlib Require Import Strings.Byte.
From Stdlib Require Strings.Ascii.
From Stdlib Require Floats.SpecFloat.

Close Scope Q_scope.

(** ** Exceptions and results *)

Inductive exn : Type :=
| OSError                                   (* h5py.File: no such file, or not an HDF5 file *)
| KeyError (key : string)                   (* group[name]: no such member *)
| UnicodeDecodeError (raw : list byte)      (* bytes.decode('utf8') *)
| ValueError (about : string)               (* set_weights, np.argmax *)
| IndexError                                (* list or array subscript out of range *)
| AttributeError                            (* attribute access on None *)
| UnidentifiedImageError                    (* PIL.Image.open *)
| RuntimeError                              (* anything the forward pass raises *)
| HTTPException (status_code : nat) (detail : string).

Inductive result (A : Type) : Type :=
| Ok (a : A)
| Raise (e : exn).
Arguments Ok {A} a.
Arguments Raise {A} e.

#[global] Instance result_ret : MRet result := @Ok.
#[global] Instance result_bind : MBind result := λ A B f r,
  match r with
  | Ok a => f a
  | Raise e => Raise e
  end.

(** A list comprehension whose element expression can raise: elements are
    evaluated left to right and the first exception ends the comprehension. *)
Fixpoint comprehension {A B} (f : A → result B) (xs : list A) : result (list B) :=
  match xs with
  | [] => Ok []
  | x :: rest =>
      match f x with
      | Raise e => Raise e
      | Ok y =>
          match comprehension f rest with
          | Raise e => Raise e
          | Ok ys => Ok (y :: ys)
          end
      end
  end.

(** ** Arrays *)

(** A numpy array: its shape and its elements in row-major order. *)
Record ndarray (A : Type) : Type := mk_ndarray {
  shape : list nat;
  data : list A
}.
Arguments mk_ndarray {A} shape data.
Arguments shape {A} _.
Arguments data {A} _.

(** What an array of weights holds at one index, by what numpy makes of it
    when the array is converted to a floating-point type.  A number counts
    by its value, whatever the type that stores it (float16, float32,
    float64, an integer or boolean type, a string that spells a number);
    [NotNumber] is an element that numpy refuses to convert, such as a string
    that spells no number. *)
Inductive scalar : Type :=
| Number (x : SpecFloat.spec_float)
| NotNumber.

(** A stored or assigned weight tensor. *)
Abbreviation tensor := (ndarray scalar).

Definition size_of_shape (s : list nat) : nat := foldr Nat.mul 1 s.

(** The float32 a number is converted to: the nearest one, a tie going to
    the even mantissa, and an infinity beyond the largest float32; zeros,
    infinities and NaN stay what they are. *)
Definition float32_of (x : SpecFloat.spec_float) : SpecFloat.spec_float :=
  match x with
  | SpecFloat.S754_finite s m e => SpecFloat.binary_round 24 128 s m e
  | _ => x
  end.

(** The conversion of one element. *)
Definition float32_item (v : scalar) : result scalar :=
  match v with
  | Number x => Ok (Number (float32_of x))
  | NotNumber => Raise (ValueError "could not convert string to float")
  end.

(** [np.asarray(value, dtype=np.float32)]: the elements are converted in
    order, and the first one that is no number raises. *)
Definition np_asarray_float32 (value : tensor) : result tensor :=
  converted ← comprehension float32_item (data value);
  mret {| shape := shape value; data := converted |}.

(** A list of arrays, each converted to float32. *)
Definition as_float32 (ws : list tensor) : result (list tensor) :=
  comprehension np_asarray_float32 ws.

(** ** The network *)

(** A Keras layer object: its name and its current parameter arrays.  The
    shapes of the current arrays are the layer's parameter signature. *)
Record layer : Type := mk_layer {
  name : string;
  weights : list tensor
}.

Definition signature (l : layer) : list (list nat) := shape <$> weights l.

(** [backend.batch_set_value] of tf.keras (TensorFlow 2), which runs
    [x.assign(np.asarray(value, dtype=dtype_numpy(x)))] for one variable
    after the other: an array is converted to the variable's type, float32,
    and assigned; a conversion that raises ends the call, with the variables
    before it assigned and the others as they were.  The result is the
    outcome and the variables after the call. *)
Fixpoint batch_set_value (variables values : list tensor) : result unit * list tensor :=
  match variables, values with
  | x :: variables', value :: values' =>
      match np_asarray_float32 value with
      | Raise e => (Raise e, variables)
      | Ok assigned =>
          let (r, rest) := batch_set_value variables' values' in
          (r, assigned :: rest)
      end
  | _, _ => (Ok tt, variables)
  end.

(** [Layer.set_weights] of tf.keras (TensorFlow 2): the number of arrays is
    checked first, then every shape, and a call that fails one of the checks
    leaves the layer as it was; then the arrays are handed to
    [batch_set_value].  The result is the outcome and the layer after the
    call. *)
Definition Layer_set_weights (l : layer) (ws : list tensor) : result unit * layer :=
  if decide (length ws = length (weights l)) then
    if decide (shape <$> ws = signature l) then
      let (r, variables) := batch_set_value (weights l) ws in
      (r, {| name := name l; weights := variables |})
    else (Raise (ValueError "shape"), l)
  else (Raise (ValueError "count"), l).

Definition layer_params (l : layer) : nat :=
  foldr (λ t n, size_of_shape (shape t) + n) 0 (weights l).

(** [model.count_params()] *)
Definition count_params (ls : list layer) : nat :=
  foldr (λ l n, layer_params l + n) 0 ls.

(** ** The weight container *)

(** An entry of a string-list attribute: h5py hands back [bytes] or [str]. *)
Inductive attr_item : Type :=
| AttrBytes (raw : list byte)
| AttrStr (s : string).

(** A layer's sub-group: the [weight_names] attribute, if recorded, and the
    datasets reachable from the sub-group by name. *)
Record layer_group : Type := mk_layer_group {
  weight_names_attr : option (list attr_item);
  datasets : gmap string tensor
}.

(** The group that holds the weights: the [layer_names] attribute, if
    recorded, and the layers' sub-groups. *)
Record weight_group_t : Type := mk_weight_group {
  layer_names_attr : option (list attr_item);
  groups : gmap string layer_group
}.

(** An opened file: the top level is itself a group, and it may have a
    member called [model_weights]. *)
Record h5file : Type := mk_h5file {
  top_level : weight_group_t;
  model_weights : option weight_group_t
}.

(** The files on disk, by path. *)
Abbreviation filesystem := (gmap string h5file).

Definition h5_path : string := "best_tomato_model.h5".

(** *** UTF-8 *)

Definition byte_in (lo hi : N) (b : byte) : bool :=
  ((lo <=? Byte.to_N b) && (Byte.to_N b <=? hi))%N.

Definition continuation (b : byte) : bool := byte_in 128 191 b.

(** Well-formed UTF-8 byte sequences (no overlong forms, no surrogates,
    nothing above U+10FFFF), as Python's strict decoder accepts them. *)
Fixpoint utf8_valid (bs : list byte) : bool :=
  match bs with
  | [] => true
  | b0 :: r0 =>
      if byte_in 0 127 b0 then utf8_valid r0 else
      match r0 with
      | [] => false
      | b1 :: r1 =>
          if byte_in 194 223 b0 && continuation b1 then utf8_valid r1 else
          match r1 with
          | [] => false
          | b2 :: r2 =>
              if (byte_in 224 224 b0 && byte_in 160 191 b1
                  || byte_in 225 236 b0 && continuation b1
                  || byte_in 237 237 b0 && byte_in 128 159 b1
                  || byte_in 238 239 b0 && continuation b1)
                 && continuation b2
              then utf8_valid r2 else
              match r2 with
              | [] => false
              | b3 :: r3 =>
                  if (byte_in 240 240 b0 && byte_in 144 191 b1
                      || byte_in 241 243 b0 && continuation b1
                      || byte_in 244 244 b0 && byte_in 128 143 b1)
                     && continuation b2 && continuation b3
                  then utf8_valid r3 else false
              end
          end
      end
  end.

(** [raw.decode('utf8')] *)
Definition bytes_decode (raw : list byte) : result string :=
  if utf8_valid raw then Ok (String.string_of_list_byte raw)
  else Raise (UnicodeDecodeError raw).

(** [n.decode('utf8') if hasattr(n, 'decode') else n] *)
Definition decode_item (n : attr_item) : result string :=
  match n with
  | AttrBytes raw => bytes_decode raw
  | AttrStr s => Ok s
  end.

(** [[... for n in attrs.get(key, [])]] *)
Definition decoded_attr (a : option (list attr_item)) : result (list string) :=
  comprehension decode_item (default [] a).

(** [group[key]] on a mapping of members *)
Definition getitem {V} (m : gmap string V) (key : string) : result V :=
  match m !! key with
  | Some v => Ok v
  | None => Raise (KeyError key)
  end.

(** ** The process state and the monad of the start-up script *)

(** What the script prints, line by line. *)
Inductive output : Type :=
| OutBuilding                       (* "Building model architecture and loading weights ..." *)
| OutLoaded                         (* "Model loaded successfully with weights from .h5 file!" *)
| OutInputShape                     (* "Model input shape: ..." *)
| OutOutputShape                    (* "Model output shape: ..." *)
| OutTotalParameters (n : nat)      (* "Total parameters: ..." *)
| OutErrorLoading (e : exn)         (* "Error loading model: {e}" *)
| OutRandomWeights.                 (* "Model will run with random weights for testing" *)

(** What can be observed of a run: calls of [set_weights] on the layer at a
    position, and printed lines; the newest event is last. *)
Inductive event : Type :=
| SetWeights (i : nat) (ws : list tensor)
| Print (o : output).

(** The global [model] (its layer objects, by position) and the trace. *)
Record world : Type := mk_world {
  model_layers : list layer;
  trace : list event
}.

Definition M (A : Type) : Type := world → result A * world.

#[global] Instance M_ret : MRet M := λ A a w, (Ok a, w).
#[global] Instance M_bind : MBind M := λ A B f m w,
  match m w with
  | (Ok a, w1) => f a w1
  | (Raise e, w1) => (Raise e, w1)
  end.

(** Code that reads but changes nothing. *)
Definition lift {A} (r : result A) : M A := λ w, (r, w).

Definition emit (e : event) : M unit := λ w,
  (Ok tt, {| model_layers := model_layers w; trace := trace w ++ [e] |}).

Definition print (o : output) : M unit := emit (Print o).

(** [try: body  except Exception as e: handler(e)]; every [exn] is an
    [Exception]. *)
Definition try_except {A} (body : M A) (handler : exn → M A) : M A := λ w,
  match body w with
  | (Ok a, w1) => (Ok a, w1)
  | (Raise e, w1) => handler e w1
  end.

(** [layer.set_weights(ws)] on the layer object at position [i], whose state
    is [l]: the call is recorded, and the object is left as the framework
    leaves it, whether the call returns or raises. *)
Definition set_weights (i : nat) (l : layer) (ws : list tensor) : M unit := λ w,
  let (r, l') := Layer_set_weights l ws in
  (r, {| model_layers := <[i := l']> (model_layers w);
         trace := trace w ++ [SetWeights i ws] |}).

(** The loop over layer objects: [body] gets a position and the state of
    the object there when its turn comes. *)
Fixpoint for_layers (body : nat → layer → M unit) (positions : list nat) : M unit :=
  match positions with
  | [] => mret tt
  | i :: rest => λ w,
      match model_layers w !! i with
      | Some l => (body i l ;; for_layers body rest) w
      | None => for_layers body rest w
      end
  end.

(** [for layer in model.layers: body] *)
Definition for_layer_in_model (body : nat → layer → M unit) : M unit := λ w,
  for_layers body (seq 0 (length (model_layers w))) w.

(** ** The weight loader (main.py, lines 38 to 68) *)

(** [h5py.File(path, 'r')] *)
Definition h5py_File (fs : filesystem) (path : string) : result h5file :=
  match fs !! path with
  | Some f => Ok f
  | None => Raise OSError
  end.

(** [f['model_weights'] if 'model_weights' in f else f] *)
Definition weight_group_of (f : h5file) : weight_group_t :=
  match model_weights f with
  | Some g => g
  | None => top_level f
  end.

(** Lines 52 to 58: open the layer's sub-group, decode its weight names and
    read the named datasets in order. *)
Definition read_layer_weights (weight_group : weight_group_t) (layer_name : string)
  : result (list tensor) :=
  g ← getitem (groups weight_group) layer_name;
  weight_names ← decoded_attr (weight_names_attr g);
  comprehension (getitem (datasets g)) weight_names.

(** Lines 51 to 60: the body of the loop over layers. *)
Definition load_layer (weight_group : weight_group_t) (layer_names : list string)
    (i : nat) (l : layer) : M unit :=
  if bool_decide (name l ∈ layer_names) then
    layer_weights ← lift (read_layer_weights weight_group (name l));
    match layer_weights with
    | [] => mret tt
    | _ :: _ => set_weights i l layer_weights
    end
  else mret tt.

(** [print(f"Total parameters: {model.count_params():,}")] *)
Definition print_total_parameters : M unit := λ w,
  print (OutTotalParameters (count_params (model_layers w))) w.

(** Lines 41 to 65: the body of the [try]. *)
Definition load_weights (fs : filesystem) : M unit :=
  f ← lift (h5py_File fs h5_path);
  layer_names ← lift (decoded_attr (layer_names_attr (weight_group_of f)));
  for_layer_in_model (load_layer (weight_group_of f) layer_names);;
  print OutLoaded;;
  print OutInputShape;;
  print OutOutputShape;;
  print_total_parameters.

(** Lines 66 to 68: the handler of the [except]. *)
Definition on_load_error (e : exn) : M unit :=
  print (OutErrorLoading e);;
  print OutRandomWeights.

(** Lines 17 to 68, run on the freshly built model. *)
Definition startup_script (fs : filesystem) : M unit :=
  print OutBuilding;;
  try_except (load_weights fs) on_load_error.

(** The process after start-up: the model as built (line 20) goes through the
    script.  When the script ends normally the application is created and
    serves requests on the resulting state; an exception leaving the script
    would end the process instead. *)
Definition built (model : list layer) : world :=
  {| model_layers := model; trace := [] |}.

Definition startup (fs : filesystem) (model : list layer) : result unit * world :=
  startup_script fs (built model).

(** ** Images and arrays of pixels *)

Inductive image_mode : Type :=
| Mode1 | ModeL | ModeP | ModeLA | ModeRGB | ModeRGBA | ModeCMYK | ModeYCbCr | ModeLAB | ModeHSV.

Definition bands (m : image_mode) : nat :=
  match m with
  | Mode1 | ModeL | ModeP => 1
  | ModeLA => 2
  | ModeRGB | ModeYCbCr | ModeLAB | ModeHSV => 3
  | ModeRGBA | ModeCMYK => 4
  end.

(** A PIL image: mode, size as (width, height) and the pixel buffer, row by row, the
    bands of a pixel next to each other. *)
Record Image : Type := mk_Image {
  mode : image_mode;
  image_size : nat * nat;
  pixels : list byte
}.

(** The buffer of a [width] by [height] image with [n] bands whose band [c]
    of the pixel in column [x] of row [y] is [value x y c]. *)
Definition raster (width height n : nat) (value : nat → nat → nat → byte) : list byte :=
  y ← seq 0 height; x ← seq 0 width; c ← seq 0 n; [value x y c].

(** [np.array(img)] for an image with 8-bit bands: a uint8 array of shape
    (height, width, bands). *)
Definition np_array (img : Image) : ndarray Z :=
  {| shape := [(image_size img).2; (image_size img).1; bands (mode img)];
     data := (λ b, Z.of_N (Byte.to_N b)) <$> pixels img |}.

(** [a / 255.0] *)
Definition np_divide_255 (a : ndarray Z) : ndarray Q :=
  {| shape := shape a; data := (λ v, inject_Z v / 255)%Q <$> data a |}.

(** [np.expand_dims(a, axis=0)] *)
Definition np_expand_dims_0 {A} (a : ndarray A) : ndarray A :=
  {| shape := 1 :: shape a; data := data a |}.

(** ** Arithmetic of the response *)

(** The first position of the largest element among [xs], given the best
    seen so far. *)
Fixpoint argmax_from (best_i : nat) (best : Q) (i : nat) (xs : list Q) : nat :=
  match xs with
  | [] => best_i
  | x :: rest =>
      if Qle_bool x best then argmax_from best_i best (S i) rest
      else argmax_from i x (S i) rest
  end.

(** [np.argmax(v)]: the first position of the maximum. *)
Definition np_argmax (v : list Q) : result nat :=
  match v with
  | [] => Raise (ValueError "attempt to get argmax of an empty sequence")
  | x :: rest => Ok (argmax_from 0 x 1 rest)
  end.

Fixpoint max_from (best : Q) (xs : list Q) : Q :=
  match xs with
  | [] => best
  | x :: rest => if Qle_bool x best then max_from best rest else max_from x rest
  end.

(** [np.max(v)] *)
Definition np_max (v : list Q) : result Q :=
  match v with
  | [] => Raise (ValueError "zero-size array to reduction operation maximum")
  | x :: rest => Ok (max_from x rest)
  end.

(** Rounding to the nearest integer, ties to the even one. *)
Definition round_half_even (x : Q) : Z :=
  let f := Qfloor x in
  match (x - inject_Z f ?= 1 # 2)%Q with
  | Lt => f
  | Gt => (f + 1)%Z
  | Eq => if Z.even f then f else (f + 1)%Z
  end.

(** [round(x, 2)] *)
Definition round2 (x : Q) : Q := (inject_Z (round_half_even (x * 100)) / 100)%Q.

(** [xs[i]] *)
Definition subscript {A} (xs : list A) (i : nat) : result A :=
  match xs !! i with
  | Some x => Ok x
  | None => Raise IndexError
  end.

(** [{key: value for i in items}] built on [d]: entries are evaluated and
    stored in order, a later entry replaces an earlier one under the same
    key, and the first exception ends the comprehension. *)
Fixpoint dict_comprehension {A} (entry : A → result (string * Q)) (items : list A)
    (d : gmap string Q) : result (gmap string Q) :=
  match items with
  | [] => Ok d
  | i :: rest =>
      match entry i with
      | Raise e => Raise e
      | Ok (k, v) => dict_comprehension entry rest (<[k := v]> d)
      end
  end.

(** ** The request handlers (main.py, lines 98 to 162) *)

Definition class_names : list string :=
  [ "Bacterial_spot"; "Early_blight"; "Late_blight"; "Leaf_Mold";
    "Septoria_leaf_spot"; "Spider_mites"; "Target_Spot";
    "Yellow_Leaf_Curl_Virus"; "Tomato_mosaic_virus"; "Healthy" ].

(** What the framework sends: the status code with the returned body, or
    the status code and detail of a raised [HTTPException]. *)
Inductive response (B : Type) : Type :=
| Returned (status_code : nat) (body : B)
| Failed (status_code : nat) (detail : string).
Arguments Returned {B} status_code body.
Arguments Failed {B} status_code detail.

Definition status_of {B} (r : response B) : nat :=
  match r with
  | Returned s _ => s
  | Failed s _ => s
  end.

Record health : Type := mk_health {
  status : string;
  model_loaded : bool;
  model_params : nat;
  health_model_source : string
}.

(** [GET /health] *)
Definition health_check (w : world) : response health :=
  Returned 200
    {| status := "healthy";
       model_loaded := true;
       model_params := count_params (model_layers w);
       health_model_source := "h5_weights" |}.

Record UploadFile : Type := mk_UploadFile {
  content_type : option string;
  contents : list byte
}.

Record analysis : Type := mk_analysis {
  disease : string;
  confidence : Q;
  is_healthy : bool;
  predicted_class_index : nat;
  all_probabilities : gmap string Q;
  message : string;
  model_source : string
}.

(** The entry of [all_probabilities] for position [i]. *)
Definition probability_entry (prediction : list Q) (i : nat) : result (string * Q) :=
  k ← subscript class_names i;
  p ← subscript prediction i;
  mret (k, round2 (p * 100)).

Section Handler.

(** The parts of the handler that live in libraries. *)

(** [Image.open(io.BytesIO(contents))]: the decoder. *)
Variable Image_open : list byte → result Image.
(** Band [c] of the pixel at column [x], row [y] of [img.convert('RGB')]. *)
Variable rgb_value : Image → nat → nat → nat → byte.
(** Band [c] of the pixel at column [x], row [y] of [img.resize(size)]:
    the resampling filter. *)
Variable resampled : Image → nat * nat → nat → nat → nat → byte.
(** [model.predict(batch, verbose=0)[0]] with the model's current layers. *)
Variable predict : list layer → ndarray Q → result (list Q).
(** [str(e)] *)
Variable str : exn → string.

(** [img.convert('RGB')] *)
Definition convert_RGB (img : Image) : Image :=
  {| mode := ModeRGB;
     image_size := image_size img;
     pixels := raster (image_size img).1 (image_size img).2 3 (rgb_value img) |}.

(** [img.resize(new_size)] *)
Definition resize (new_size : nat * nat) (img : Image) : Image :=
  {| mode := mode img;
     image_size := new_size;
     pixels := raster new_size.1 new_size.2 (bands (mode img)) (resampled img new_size) |}.

(** Lines 119 to 123: from the decoded image to the normalised array. *)
Definition preprocess (img : Image) : ndarray Q :=
  np_divide_255 (np_array (resize (128, 128) (convert_RGB img))).

(** Lines 113 to 159: the body of the [try]. *)
Definition analyze_body (model : list layer) (file : UploadFile) : result analysis :=
  ct ← match content_type file with
       | Some ct => Ok ct
       | None => Raise AttributeError
       end;
  if negb (String.prefix "image/" ct) then
    Raise (HTTPException 400 "File must be an image")
  else
    img ← Image_open (contents file);
    let img_array := np_expand_dims_0 (preprocess img) in
    prediction ← predict model img_array;
    predicted_class ← np_argmax prediction;
    top ← np_max prediction;
    let confidence := (top * 100)%Q in
    disease_name ← subscript class_names predicted_class;
    let is_healthy := bool_decide (disease_name = "Healthy") in
    probabilities ← dict_comprehension (probability_entry prediction)
                      (seq 0 (length class_names)) ∅;
    mret {| disease := disease_name;
            confidence := round2 confidence;
            is_healthy := is_healthy;
            predicted_class_index := predicted_class;
            all_probabilities := probabilities;
            message := "Analysis complete";
            model_source := "best_tomato_model.h5 (trained)" |}.

(** [POST /api/analyze]: the [try] with its [except Exception] clause,
    which raises an [HTTPException] with status 500. *)
Definition analyze_image (w : world) (file : UploadFile) : response analysis :=
  match analyze_body (model_layers w) file with
  | Ok body => Returned 200 body
  | Raise e => Failed 500 ("Error: " +:+ str e)
  end.

End Handler.

(** ** Concrete inputs *)

(** The float32 and the float64 that hold the integer [v], or the nearest
    they have. *)
Definition float32_of_Z (v : Z) : SpecFloat.spec_float :=
  SpecFloat.binary_normalize 24 128 v 0 false.
Definition float64_of_Z (v : Z) : SpecFloat.spec_float :=
  SpecFloat.binary_normalize 53 1024 v 0 false.

(** The float32 array of shape [s] filled with [v]. *)
Definition tensor_of (s : list nat) (v : Z) : tensor :=
  {| shape := s; data := replicate (size_of_shape s) (Number (float32_of_Z v)) |}.

(** The float64 array of shape [s] filled with [v]. *)
Definition float64_tensor_of (s : list nat) (v : Z) : tensor :=
  {| shape := s; data := replicate (size_of_shape s) (Number (float64_of_Z v)) |}.

(** An array of shape [s] of strings that spell no number. *)
Definition text_tensor_of (s : list nat) : tensor :=
  {| shape := s; data := replicate (size_of_shape s) NotNumber |}.

(** A small network: a dense layer, a layer without parameters and a second
    dense layer, freshly built. *)
Definition small_model : list layer :=
  [ {| name := "dense"; weights := [tensor_of [2; 2] 0; tensor_of [2] 0] |};
    {| name := "dropout"; weights := [] |};
    {| name := "dense_1"; weights := [tensor_of [2; 1] 0; tensor_of [1] 0] |} ].

Definition names_attr (ns : list string) : option (list attr_item) :=
  Some ((λ s, AttrBytes (String.list_byte_of_string s)) <$> ns).

Definition dense_group (kernel_name bias_name : string) (kernel bias : tensor) : layer_group :=
  {| weight_names_attr := names_attr [kernel_name; bias_name];
     datasets := <[kernel_name := kernel]> (<[bias_name := bias]> ∅) |}.

Definition empty_group : layer_group :=
  {| weight_names_attr := Some []; datasets := ∅ |}.

Definition file_with (gs : gmap string layer_group) (ns : option (list attr_item)) : h5file :=
  {| top_level := {| layer_names_attr := None; groups := ∅ |};
     model_weights := Some {| layer_names_attr := ns; groups := gs |} |}.

(** A container written by training the small network. *)
Definition trained_groups : gmap string layer_group :=
  <["dense" := dense_group "dense/kernel:0" "dense/bias:0"
                 (tensor_of [2; 2] 5) (tensor_of [2] 6)]>
  (<["dropout" := empty_group]>
  (<["dense_1" := dense_group "dense_1/kernel:0" "dense_1/bias:0"
                   (tensor_of [2; 1] 7) (tensor_of [1] 8)]> ∅)).

Definition trained_file : h5file :=
  file_with trained_groups (names_attr ["dense"; "dropout"; "dense_1"]).

(** The same container, except that the first layer's kernel was stored
    with three rows. *)
Definition mismatched_groups : gmap string layer_group :=
  <["dense" := dense_group "dense/kernel:0" "dense/bias:0"
                 (tensor_of [3; 2] 5) (tensor_of [2] 6)]> trained_groups.

Definition mismatched_file : h5file :=
  file_with mismatched_groups (names_attr ["dense"; "dropout"; "dense_1"]).

(** The trained container, except that the last layer's kernel was stored
    with three rows. *)
Definition late_mismatch_file : h5file :=
  file_with (<["dense_1" := dense_group "dense_1/kernel:0" "dense_1/bias:0"
                              (tensor_of [3; 1] 7) (tensor_of [1] 8)]> trained_groups)
            (names_attr ["dense"; "dropout"; "dense_1"]).

(** The trained container, except that a tensor was stored for the layer
    without parameters. *)
Definition middle_mismatch_file : h5file :=
  file_with (<["dropout" := {| weight_names_attr := names_attr ["dropout/extra:0"];
                               datasets := <["dropout/extra:0" := tensor_of [2] 9]> ∅ |}]>
               trained_groups)
            (names_attr ["dense"; "dropout"; "dense_1"]).

(** The trained container, except that the last layer's kernel was stored in
    float64 and holds 2^24 + 1, a number that no float32 has. *)
Definition wide_file : h5file :=
  file_with (<["dense_1" := dense_group "dense_1/kernel:0" "dense_1/bias:0"
                              (float64_tensor_of [2; 1] 16777217) (tensor_of [1] 8)]>
               trained_groups)
            (names_attr ["dense"; "dropout"; "dense_1"]).

(** The trained container, except that the first layer's bias was stored as
    strings that spell no number. *)
Definition text_bias_file : h5file :=
  file_with (<["dense" := dense_group "dense/kernel:0" "dense/bias:0"
                            (tensor_of [2; 2] 5) (text_tensor_of [2])]>
               trained_groups)
            (names_attr ["dense"; "dropout"; "dense_1"]).

(** A container that records only the first layer. *)
Definition partial_file : h5file :=
  file_with trained_groups (names_attr ["dense"]).

(** A container whose layer list has an entry that is not UTF-8. *)
Definition undecodable_file : h5file :=
  file_with trained_groups (Some [AttrBytes [Byte.xff]]).

(** A container that lists a layer whose kernel dataset is missing. *)
Definition truncated_file : h5file :=
  file_with (<["dense" := {| weight_names_attr := names_attr ["dense/kernel:0"];
                             datasets := ∅ |}]> trained_groups)
            (names_attr ["dense"]).

(** The layers of the small network as they are built and as the trained
    container would load them. *)
Definition built_dense : layer :=
  {| name := "dense"; weights := [tensor_of [2; 2] 0; tensor_of [2] 0] |}.
Definition built_dropout : layer := {| name := "dropout"; weights := [] |}.
Definition built_dense_1 : layer :=
  {| name := "dense_1"; weights := [tensor_of [2; 1] 0; tensor_of [1] 0] |}.
Definition trained_dense : layer :=
  {| name := "dense"; weights := [tensor_of [2; 2] 5; tensor_of [2] 6] |}.

(** The state in which loading the late-mismatch container stops: the first
    layer has been assigned, the call on the last layer has been refused. *)
Definition stopped_at_last_layer : world :=
  {| model_layers := [trained_dense; built_dropout; built_dense_1];
     trace := [ Print OutBuilding;
                SetWeights 0 [tensor_of [2; 2] 5; tensor_of [2] 6];
                SetWeights 2 [tensor_of [3; 1] 7; tensor_of [1] 8] ] |}.

Definition disk (f : h5file) : filesystem := {[ h5_path := f ]}.

Definition no_file : filesystem := ∅.

(** The state in which the [try] of the loader starts. *)
Definition before_loading (model : list layer) : world :=
  {| model_layers := model; trace := [Print OutBuilding] |}.

(** What the two outcomes of the [try] print. *)
Definition loaded_lines (w : world) : list event :=
  [ Print OutLoaded; Print OutInputShape; Print OutOutputShape;
    Print (OutTotalParameters (count_params (model_layers w))) ].

Definition error_lines (e : exn) : list event :=
  [ Print (OutErrorLoading e); Print OutRandomWeights ].

Definition printing (w : world) (lines : list event) : world :=
  {| model_layers := model_layers w; trace := trace w ++ lines |}.

Definition is_print (ev : event) : Prop :=
  match ev with
  | Print _ => True
  | SetWeights _ _ => False
  end.

(** ** The claim on per-layer failure, as the specification words it *)

(** Layer [l] is listed, its tensors can be read, and they are not what the
    layer expects. *)
Definition stored_mismatch (g : weight_group_t) (names : list string) (l : layer) : Prop :=
  name l ∈ names ∧
  ∃ ws, read_layer_weights g (name l) = Ok ws ∧ shape <$> ws ≠ signature l.

(** Layer [l] is listed, its stored tensors have the count and the shapes
    the layer expects, and [ws] is what they are as float32 arrays. *)
Definition stored_match (g : weight_group_t) (names : list string) (l : layer)
    (ws : list tensor) : Prop :=
  name l ∈ names ∧
  ∃ stored, read_layer_weights g (name l) = Ok stored ∧
            shape <$> stored = signature l ∧
            as_float32 stored = Ok ws.

(** A mismatch at one layer costs only that layer: every other layer with
    matching tensors holds them, as float32 arrays, after start-up. *)
Definition failure_is_per_layer (fs : filesystem) (model : list layer) : Prop :=
  ∀ f names i l,
    h5py_File fs h5_path = Ok f →
    decoded_attr (layer_names_attr (weight_group_of f)) = Ok names →
    model !! i = Some l →
    stored_mismatch (weight_group_of f) names l →
    ∀ j lj ws,
      j ≠ i →
      model !! j = Some lj →
      stored_match (weight_group_of f) names lj ws →
      model_layers (startup fs model).2 !! j = Some {| name := name lj; weights := ws |}.

(** Layer [l] goes through its turn of the loop without an exception: it
    is not listed, or its tensors can be read and there is none, or they have
    the count and the shapes the layer expects and all of them convert to
    float32. *)
Definition loads_cleanly (g : weight_group_t) (names : list string) (l : layer) : Prop :=
  name l ∉ names ∨
  ∃ ws, read_layer_weights g (name l) = Ok ws ∧
        (ws = [] ∨ shape <$> ws = signature l ∧ ∃ vars, as_float32 ws = Ok vars).

(** ** Vocabulary of the claims on the handlers *)

Definition total (xs : list Q) : Q := foldr Qplus 0%Q xs.

(** The sum of the values of a mapping. *)
Definition sum_of_values (m : gmap string Q) : Q := total (map_to_list m).*2.

(** What the network's last layer, a softmax over ten classes, puts out:
    ten numbers that add up to 1, give or take the rounding of the float32
    arithmetic (far below the 0.0005 allowed here). *)
Definition softmax_output (p : list Q) : Prop :=
  length p = 10 ∧ (Qabs (total p - 1) <= 5 # 10000)%Q.

Definition in_unit_interval (x : Q) : Prop := (0 <= x)%Q ∧ (x <= 1)%Q.

(** ** A concrete instance of the libraries *)

(** A decoder for a one-byte format: the byte is the grey level of a one
    pixel image. *)
Definition decode_grey (raw : list byte) : result Image :=
  match raw with
  | [b] => Ok {| mode := ModeL; image_size := (1, 1); pixels := [b] |}
  | _ => Raise UnidentifiedImageError
  end.

(** Every band of every pixel takes the image's first byte. *)
Definition first_byte (img : Image) : byte := hd Byte.x00 (pixels img).
Definition grey_to_rgb (img : Image) (x y c : nat) : byte := first_byte img.
Definition nearest (img : Image) (new_size : nat * nat) (x y c : nat) : byte := first_byte img.

(** A forward pass that answers with the same distribution for every
    input; its entries are float32 values and add up to 1. *)
Definition fixed_prediction : list Q :=
  [ 1 # 8; 1 # 16; 1 # 32; 1 # 64; 1 # 128; 1 # 256; 1 # 512; 1 # 1024; 1 # 1024; 3 # 4 ]%Q.
Definition fixed_predict (model : list layer) (batch : ndarray Q) : result (list Q) :=
  Ok fixed_prediction.

Definition no_text (e : exn) : string := "".

Definition grey_png : UploadFile :=
  {| content_type := Some "image/png"; contents := [Byte.x80] |}.

Definition text_file : UploadFile :=
  {| content_type := Some "text/plain"; contents := [Byte.x68; Byte.x69] |}.

Definition after_startup : world := (startup (disk trained_file) small_model).2.

(** The answer to the grey upload under the concrete libraries. *)
Definition example_probabilities : gmap string Q :=
  <["Bacterial_spot" := (1250 # 100)%Q]>
  (<["Early_blight" := (625 # 100)%Q]>
  (<["Late_blight" := (312 # 100)%Q]>
  (<["Leaf_Mold" := (156 # 100)%Q]>
  (<["Septoria_leaf_spot" := (78 # 100)%Q]>
  (<["Spider_mites" := (39 # 100)%Q]>
  (<["Target_Spot" := (20 # 100)%Q]>
  (<["Yellow_Leaf_Curl_Virus" := (10 # 100)%Q]>
  (<["Tomato_mosaic_virus" := (10 # 100)%Q]>
  (<["Healthy" := (7500 # 100)%Q]> ∅))))))))).

Definition example_body : analysis :=
  {| disease := "Healthy";
     confidence := (7500 # 100)%Q;
     is_healthy := true;
     predicted_class_index := 9;
     all_probabilities := example_probabilities;
     message := "Analysis complete";
     model_source := "best_tomato_model.h5 (trained)" |}.

From stdpp Require sorting.

(** ** Vocabulary of further properties of the loader *)

(** The positions on which [set_weights] was called, in the order of the
    calls. *)
Definition set_weights_positions (t : list event) : list nat :=
  omap (λ ev, match ev with
              | SetWeights i _ => Some i
              | Print _ => None
              end) t.

(** Lines 41 to 48: the layer names the loader works with, when the file
    opens and its list of names decodes. *)
Definition recorded_layer_names (fs : filesystem) : result (list string) :=
  f ← h5py_File fs h5_path;
  decoded_attr (layer_names_attr (weight_group_of f)).

(** Bytes below 128. *)
Definition is_ascii (b : byte) : Prop := (Byte.to_N b < 128)%N.

(** A weights-only container: the groups of the trained container at the
    top level, without the list of layer names. *)
Definition unlabelled_file : h5file :=
  {| top_level := {| layer_names_attr := None; groups := trained_groups |};
     model_weights := None |}.

(** The trained container, read against a model whose layers got other
    names. *)
Definition renamed_model : list layer :=
  [ {| name := "dense_2"; weights := [tensor_of [2; 2] 0; tensor_of [2] 0] |};
    {| name := "dropout_1"; weights := [] |};
    {| name := "dense_3"; weights := [tensor_of [2; 1] 0; tensor_of [1] 0] |} ].


(** The trained container, with the sub-group of the middle layer missing. *)
Definition gapped_file : h5file :=
  file_with (delete "dropout" trained_groups) (names_attr ["dense"; "dropout"; "dense_1"]).

(** Text all of whose encoded bytes are ASCII. *)
Definition ascii_text (s : string) : Prop :=
  Forall is_ascii (String.list_byte_of_string s).

(** Bytes that occur in no UTF-8 encoding: C0, C1 and F5 to FF. *)
Definition never_in_utf8 (b : byte) : Prop :=
  byte_in 192 193 b = true ∨ byte_in 245 255 b = true.

(** ** The root endpoint and the routes (main.py, lines 71 to 107) *)

Record model_info : Type := mk_model_info {
  input_shape : string;
  output_shape : string;
  parameters : nat
}.

Record root_body : Type := mk_root_body {
  root_message : string;
  root_model_source : string;
  endpoints : list (string * string);
  root_model_info : model_info
}.

(** [GET /]; [shape_text] stands for [str(model.input_shape)] and
    [str(model.output_shape)], which the architecture fixes. *)
Definition root (shape_text : string * string) (w : world) : response root_body :=
  Returned 200
    {| root_message := "🍅 Tomato Disease Classifier API";
       root_model_source := "tomato_leaf_cnn_model.h5";
       endpoints := [ ("analyze", "/api/analyze (POST with image file)");
                      ("health", "/health (GET)") ];
       root_model_info := {| input_shape := shape_text.1;
                             output_shape := shape_text.2;
                             parameters := count_params (model_layers w) |} |}.

Inductive http_method : Type :=
| GET | HEAD | POST | PUT | PATCH | DELETE | OPTIONS | TRACE | CONNECT.

#[global] Instance http_method_eq_dec : EqDecision http_method.
Proof. solve_decision. Defined.

(** What a route runs: the pages [FastAPI(...)] of line 71 serves by default
    (the schema, the two documentation pages and the redirect page of the
    first), and the handlers of the three decorators. *)
Inductive operation : Type :=
| OpOpenapi | OpDocs | OpDocsRedirect | OpRedoc
| OpRoot | OpHealth | OpAnalyze.

(** The routes of the application in the order in which they are added,
    each with its path and its methods.  The framework's own pages are plain
    routes for GET, which serve HEAD as well; a route of a decorator serves
    the decorator's method only. *)
Definition registered : list (string * list http_method * operation) :=
  [ ("/openapi.json", [GET; HEAD], OpOpenapi);
    ("/docs", [GET; HEAD], OpDocs);
    ("/docs/oauth2-redirect", [GET; HEAD], OpDocsRedirect);
    ("/redoc", [GET; HEAD], OpRedoc);
    ("/", [GET], OpRoot);
    ("/health", [GET], OpHealth);
    ("/api/analyze", [POST], OpAnalyze) ].

Definition slash : Ascii.ascii := Ascii.ascii_of_nat 47.
Definition newline : string := String (Ascii.ascii_of_nat 10) "".

(** A route's path is compiled to the regular expression [^path$] and
    matched from the start of the request path; [$] also matches before a
    newline that ends the string. *)
Definition path_matches (pattern path : string) : Prop :=
  path = pattern ∨ path = pattern +:+ newline.

#[global] Instance path_matches_dec pattern path : Decision (path_matches pattern path).
Proof. unfold path_matches. apply _. Defined.

(** The first route whose path matches. *)
Definition find_route (path : string) : option (string * list http_method * operation) :=
  snd <$> list_find (λ r, path_matches r.1.1 path) registered.

(** [path.rstrip("/")] *)
Fixpoint rstrip_slash (path : string) : string :=
  match path with
  | EmptyString => EmptyString
  | String c rest =>
      match rstrip_slash rest with
      | EmptyString => if Ascii.eqb c slash then EmptyString else String c EmptyString
      | stripped => String c stripped
      end
  end.

(** The path the router tries when no route matches: without the slashes
    at its end, or with one added when it has none. *)
Definition redirect_path (path : string) : string :=
  if bool_decide (rstrip_slash path = path) then path +:+ "/" else rstrip_slash path.

(** Routing of a request by its method and path: the operation of the route
    that matches; 405 when the route that matches the path does not serve the
    method; a redirection (307) when no route matches the path but one
    matches it with the slash at the end added or removed; 404 otherwise. *)
Inductive routed : Type :=
| Routed (op : operation)
| MethodNotAllowed
| Redirected (location : string)
| NotFound.

Definition route (m : http_method) (path : string) : routed :=
  match find_route path with
  | Some (_, methods, op) =>
      if bool_decide (m ∈ methods) then Routed op else MethodNotAllowed
  | None =>
      if bool_decide (path ≠ "/") && bool_decide (is_Some (find_route (redirect_path path)))
      then Redirected (redirect_path path)
      else NotFound
  end.

(** The status code of a request that carries no upload and that the CORS
    middleware of lines 74 to 80 hands on to the router, as it does with
    every request but a preflight (OPTIONS with the headers [Origin] and
    [Access-Control-Request-Method]).  The framework answers 422 when the
    required [file] field of line 108 is missing. *)
Definition status_without_upload (shape_text : string * string) (w : world)
    (m : http_method) (path : string) : nat :=
  match route m path with
  | Routed OpRoot => status_of (root shape_text w)
  | Routed OpHealth => status_of (health_check w)
  | Routed OpAnalyze => 422
  | Routed (OpOpenapi | OpDocs | OpDocsRedirect | OpRedoc) => 200
  | MethodNotAllowed => 405
  | Redirected _ => 307
  | NotFound => 404
  end.

(** ** The API test suite (test_api.py) *)

(** The four tests: each sends one request and passes when the status code
    is 200. *)
Definition test_root (status : http_method → string → nat) : bool :=
  bool_decide (status GET "/" = 200).
Definition test_health (status : http_method → string → nat) : bool :=
  bool_decide (status GET "/health" = 200).
Definition test_model_info (status : http_method → string → nat) : bool :=
  bool_decide (status GET "/model-info" = 200).
Definition test_prediction (status : http_method → string → nat) : bool :=
  bool_decide (status POST "/predict" = 200).

(** [run_all_tests], against a server that answers: the results in order,
    and the number of tests passed. *)
Definition run_all_tests (status : http_method → string → nat) : list (string * bool) :=
  (λ t, (t.1, t.2 status)) <$>
    [ ("Root Endpoint", test_root); ("Health Check", test_health);
      ("Model Info", test_model_info); ("Prediction", test_prediction) ].

Definition total_passed (results : list (string * bool)) : nat :=
  length (filter (λ r, r.2 = true) results).

(** ** The three best classes (test_trained_model.py, lines 54 to 59;
       test_multiple_images.py, lines 56 to 62) *)

(** [probs.items()]: the bindings in the order in which the server inserted
    them, which is the order of the class list. *)
Definition items (probs : gmap string Q) : list (string * Q) :=
  omap (λ k, (λ v, (k, v)) <$> probs !! k) class_names.

(** Insertion into a list sorted by decreasing value, before the first entry
    that is not larger: an entry goes ahead of later entries of equal value. *)
Fixpoint insert_desc (x : string * Q) (l : list (string * Q)) : list (string * Q) :=
  match l with
  | [] => [x]
  | y :: rest => if Qle_bool y.2 x.2 then x :: y :: rest else y :: insert_desc x rest
  end.

(** The order of a list sorted by decreasing value. *)
Definition desc (a b : string * Q) : Prop := (b.2 <= a.2)%Q.

(** [sorted(l, key=lambda x: x[1], reverse=True)]: the stable sort by
    decreasing value. *)
Definition sorted_by_value_desc (l : list (string * Q)) : list (string * Q) :=
  foldr insert_desc [] l.

(** [sorted(probs.items(), key=lambda x: x[1], reverse=True)[:3]] *)
Definition top_three (probs : gmap string Q) : list (string * Q) :=
  take 3 (sorted_by_value_desc (items probs)).

(** ** The upload test (tests/test_image_upload.py, lines 20 to 74) *)

(** The values of the JSON objects the service returns. *)
Inductive json : Type :=
| JString (s : string)
| JNumber (x : Q)
| JInt (n : nat)
| JBool (b : bool)
| JNumbers (m : gmap string Q).

(** [response.json()] for an answer of [/api/analyze]: the dict of lines 148
    to 159, or the framework's object for a raised [HTTPException]. *)
Definition analysis_json (b : analysis) : gmap string json :=
  <["disease" := JString (disease b)]>
  (<["confidence" := JNumber (confidence b)]>
  (<["is_healthy" := JBool (is_healthy b)]>
  (<["predicted_class_index" := JInt (predicted_class_index b)]>
  (<["all_probabilities" := JNumbers (all_probabilities b)]>
  (<["message" := JString (message b)]>
  (<["model_source" := JString (model_source b)]> ∅)))))).


(** What the test process can raise while it prints a result. *)
Inductive client_exn : Type :=
| ClientKeyError (key : string)
| ClientValueError
| ClientTypeError.


(** [result[key]] *)
Definition field (result : gmap string json) (key : string) : client_exn + json :=
  match result !! key with
  | Some v => inr v
  | None => inl (ClientKeyError key)
  end.


(** [int(x)]: rounding towards zero. *)
Definition py_int (x : Q) : Z := if Qle_bool 0 x then Qfloor x else Qceiling x.

(** ['█' * filled + '░' * (bar_length - filled)]; a negative count gives
    no cell. *)
Definition bar (bar_length filled : Z) : list bool :=
  replicate (Z.to_nat filled) true ++ replicate (Z.to_nat (bar_length - filled)) false.



Section UploadTest.

(** The server's libraries. *)
Variable Image_open : list byte → result Image.
Variable rgb_value : Image → nat → nat → nat → byte.
Variable resampled : Image → nat * nat → nat → nat → nat → byte.
Variable predict : list layer → ndarray Q → result (list Q).
Variable str : exn → string.


End UploadTest.

(** A forward pass whose two largest entries round to the same percentage. *)
Definition close_prediction : list Q :=
  [ 40001 # 100000; 40002 # 100000; 19997 # 100000; 0; 0; 0; 0; 0; 0; 0 ]%Q.
Definition close_predict (model : list layer) (batch : ndarray Q) : result (list Q) :=
  Ok close_prediction.

(** * Properties of the weight loader *)

(** ** What an assignment leaves in a layer *)

(** The conversion to float32 keeps the shape. *)
Lemma np_asarray_float32_shape value converted :
  np_asarray_float32 value = Ok converted → shape converted = shape value.
Proof.
  unfold np_asarray_float32, mbind, result_bind.
  destruct (comprehension float32_item (data value)); [|done]. by intros [= <-].
Qed.

(** When every array converts, the variables end up holding the converted
    arrays. *)
Lemma batch_set_value_converts variables values vars :
  length values = length variables →
  as_float32 values = Ok vars →
  batch_set_value variables values = (Ok tt, vars).
Proof.
  unfold as_float32. revert values vars.
  induction variables as [|x variables IH]; intros [|value values] vars Hlen; try done.
  - by intros [= <-].
  - simpl. destruct (np_asarray_float32 value) as [t|e]; [|done].
    destruct (comprehension np_asarray_float32 values) as [ts|e] eqn:Hts; [|done].
    intros [= <-]. rewrite (IH values ts); [done| |done]. simpl in Hlen. lia.
Qed.

(** Whatever the outcome, the variables keep their shapes, and each of
    them holds what it held or the conversion of the array given for it. *)
Lemma batch_set_value_spec variables values r variables' :
  batch_set_value variables values = (r, variables') →
  shape <$> values = shape <$> variables →
  shape <$> variables' = shape <$> variables ∧
  (r = Ok tt → as_float32 values = Ok variables') ∧
  ∀ (k : nat) t, variables' !! k = Some t →
    variables !! k = Some t ∨
    ∃ value, values !! k = Some value ∧ np_asarray_float32 value = Ok t.
Proof.
  unfold as_float32. revert values r variables'.
  induction variables as [|x variables IH]; intros [|value values] r variables'; try done.
  - intros [= <- <-] _. split; [done|]. split; [done|]. intros k t Hk. by left.
  - simpl. destruct (np_asarray_float32 value) as [t0|e] eqn:Hvalue.
    2:{ intros [= <- <-] _. split; [done|]. split; [done|]. intros k t Hk. by left. }
    destruct (batch_set_value variables values) as [r0 rest] eqn:Hrest.
    intros [= <- <-] [= Hshape Hshapes].
    destruct (IH values r0 rest Hrest Hshapes) as (Hkept & Hall & Heach).
    split; [|split].
    + rewrite !fmap_cons. f_equal; [|done].
      by rewrite (np_asarray_float32_shape _ _ Hvalue).
    + intros ->. by rewrite (Hall eq_refl).
    + intros [|k] t; simpl.
      * intros [= <-]. right. by exists value.
      * apply Heach.
Qed.

(** A call with arrays of the expected shapes that all convert returns and
    leaves the converted arrays in the layer. *)
Lemma Layer_set_weights_accepts l ws vars :
  shape <$> ws = signature l →
  as_float32 ws = Ok vars →
  Layer_set_weights l ws = (Ok tt, {| name := name l; weights := vars |}).
Proof.
  intros Hs Hvars. unfold Layer_set_weights.
  assert (length ws = length (weights l)) as Hlen.
  { apply (f_equal length) in Hs. unfold signature in Hs. by rewrite !length_fmap in Hs. }
  rewrite decide_True, decide_True by done.
  by rewrite (batch_set_value_converts _ _ vars).
Qed.

(** A call with arrays of another count or other shapes raises and leaves
    the layer as it was. *)
Lemma Layer_set_weights_refuses l ws :
  shape <$> ws ≠ signature l →
  ∃ about, Layer_set_weights l ws = (Raise (ValueError about), l).
Proof. unfold Layer_set_weights. intros. repeat case_decide; naive_solver. Qed.

(** A call that returns was given arrays of the expected shapes, all of
    which convert. *)
Lemma Layer_set_weights_returns l ws l' :
  Layer_set_weights l ws = (Ok tt, l') →
  shape <$> ws = signature l ∧
  ∃ vars, as_float32 ws = Ok vars ∧ l' = {| name := name l; weights := vars |}.
Proof.
  unfold Layer_set_weights. repeat case_decide; [|done..].
  destruct (batch_set_value (weights l) ws) as [r variables] eqn:Hset.
  intros [= -> <-]. split; [done|].
  destruct (batch_set_value_spec _ _ _ _ Hset) as (_ & Hall & _); [done|].
  exists variables. by rewrite Hall.
Qed.

(** Whatever the outcome of a call, the layer keeps its name and its
    signature, and each of its variables holds what it held or the
    conversion of the array given for it. *)
Lemma Layer_set_weights_spec l ws r l' :
  Layer_set_weights l ws = (r, l') →
  name l' = name l ∧
  signature l' = signature l ∧
  ∀ (k : nat) t, weights l' !! k = Some t →
    weights l !! k = Some t ∨
    ∃ value, ws !! k = Some value ∧ np_asarray_float32 value = Ok t.
Proof.
  unfold Layer_set_weights.
  repeat case_decide; [|intros [= <- <-]; naive_solver..].
  destruct (batch_set_value (weights l) ws) as [r0 variables] eqn:Hset.
  intros [= <- <-]. simpl.
  destruct (batch_set_value_spec _ _ _ _ Hset) as (Hkept & _ & Heach); [done|].
  done.
Qed.

Section LoaderFacts.

Context (weight_group : weight_group_t) (layer_names : list string).

Local Abbreviation body := (load_layer weight_group layer_names).

(** The five ways one turn of the loop can go. *)
Lemma load_layer_unfold i l w :
  body i l w =
    if bool_decide (name l ∈ layer_names) then
      match read_layer_weights weight_group (name l) with
      | Raise e => (Raise e, w)
      | Ok [] => (Ok tt, w)
      | Ok (t :: ts) => set_weights i l (t :: ts) w
      end
    else (Ok tt, w).
Proof.
  unfold load_layer. case_bool_decide; [|done].
  unfold mbind, M_bind, lift.
  by destruct (read_layer_weights weight_group (name l)) as [[|t ts]|e].
Qed.

Lemma set_weights_unfold i l ws w :
  set_weights i l ws w =
    ((Layer_set_weights l ws).1,
     {| model_layers := <[i := (Layer_set_weights l ws).2]> (model_layers w);
        trace := trace w ++ [SetWeights i ws] |}).
Proof. unfold set_weights. by destruct (Layer_set_weights l ws). Qed.

(** One turn of the loop either leaves the layers alone or calls
    [set_weights] on its own layer, with the tensors read for it, and leaves
    at its position what the call leaves. *)
Lemma load_layer_step i l w r w' :
  body i l w = (r, w') →
  model_layers w' = model_layers w ∨
  ∃ ws l', ws ≠ [] ∧
           read_layer_weights weight_group (name l) = Ok ws ∧
           name l ∈ layer_names ∧
           Layer_set_weights l ws = (r, l') ∧
           model_layers w' = <[i := l']> (model_layers w).
Proof.
  rewrite load_layer_unfold. case_bool_decide as Hin; [|naive_solver].
  destruct (read_layer_weights weight_group (name l)) as [[|t ts]|e] eqn:Hread;
    [naive_solver| |naive_solver].
  rewrite set_weights_unfold.
  destruct (Layer_set_weights l (t :: ts)) as [r0 l'] eqn:Hset.
  intros [= <- <-]. right. exists (t :: ts), l'. naive_solver.
Qed.

Lemma load_layer_other i l w r w' j :
  body i l w = (r, w') → j ≠ i → model_layers w' !! j = model_layers w !! j.
Proof.
  intros [->|(ws & l' & _ & _ & _ & _ & ->)]%load_layer_step Hne; [done|].
  by rewrite list_lookup_insert_ne.
Qed.

Lemma load_layer_trace i l w r w' :
  body i l w = (r, w') →
  trace w' = trace w ∨ ∃ ws, trace w' = trace w ++ [SetWeights i ws].
Proof.
  rewrite load_layer_unfold. case_bool_decide; [|naive_solver].
  destruct (read_layer_weights weight_group (name l)) as [[|t ts]|e];
    [naive_solver| |naive_solver].
  rewrite set_weights_unfold. naive_solver.
Qed.

(** One turn of the loop keeps the name and the signature of the layer at
    every position. *)
Lemma load_layer_signatures i l w r w' :
  model_layers w !! i = Some l →
  body i l w = (r, w') →
  signature <$> model_layers w' = signature <$> model_layers w ∧
  name <$> model_layers w' = name <$> model_layers w.
Proof.
  intros Hl [->|(ws & l' & _ & _ & _ & Hset & ->)]%load_layer_step; [done|].
  destruct (Layer_set_weights_spec _ _ _ _ Hset) as (Hname & Hsig & _).
  rewrite !list_fmap_insert. split.
  - apply list_insert_id. by rewrite list_lookup_fmap, Hl, Hsig.
  - apply list_insert_id. by rewrite list_lookup_fmap, Hl, Hname.
Qed.

(** *** The loop *)

Lemma for_layers_cons i rest w :
  for_layers body (i :: rest) w =
    match model_layers w !! i with
    | Some l =>
        match body i l w with
        | (Ok _, w1) => for_layers body rest w1
        | (Raise e, w1) => (Raise e, w1)
        end
    | None => for_layers body rest w
    end.
Proof.
  simpl. destruct (model_layers w !! i) as [l|]; [|done].
  unfold mbind, M_bind. by destruct (body i l w) as [[[]|e] w1].
Qed.

(** An invariant of the turns is an invariant of the loop. *)
Lemma for_layers_invariant (P : world → Prop) positions :
  (∀ i l w r w', i ∈ positions → P w → model_layers w !! i = Some l →
                 body i l w = (r, w') → P w') →
  ∀ w r w', P w → for_layers body positions w = (r, w') → P w'.
Proof.
  induction positions as [|i rest IH]; intros Hstep w r w' HP.
  - by intros [= <- <-].
  - rewrite for_layers_cons.
    assert (∀ w r w', P w → for_layers body rest w = (r, w') → P w') as IH'.
    { apply IH. intros i' l' w0 r0 w0' Hi'. apply Hstep. by right. }
    destruct (model_layers w !! i) as [l|] eqn:Hl; [|by apply IH'].
    destruct (body i l w) as [[[]|e] w1] eqn:Hb.
    + apply IH'. eapply Hstep; [left|done..].
    + intros [= <- <-]. eapply Hstep; [left|done..].
Qed.

Lemma for_layers_app ps qs w :
  for_layers body (ps ++ qs) w =
    match for_layers body ps w with
    | (Ok _, w1) => for_layers body qs w1
    | (Raise e, w1) => (Raise e, w1)
    end.
Proof.
  revert w. induction ps as [|i ps IH]; intros w; [done|].
  rewrite <-app_comm_cons, !for_layers_cons.
  destruct (model_layers w !! i) as [l|]; [|apply IH].
  destruct (body i l w) as [[[]|e] w1]; [apply IH|done].
Qed.

(** The loop leaves alone the positions it does not visit. *)
Lemma for_layers_other positions j w r w' :
  j ∉ positions → for_layers body positions w = (r, w') →
  model_layers w' !! j = model_layers w !! j.
Proof.
  intros Hj Hrun.
  apply (for_layers_invariant
           (λ w1, model_layers w1 !! j = model_layers w !! j) positions)
    with (w := w) (r := r); [|done|done].
  intros i l w0 r0 w0' Hi HP _ Hb. rewrite <-HP.
  eapply load_layer_other; [done|]. by intros ->.
Qed.

(** The loop keeps every layer's name and signature. *)
Lemma for_layers_signatures positions w r w' :
  for_layers body positions w = (r, w') →
  signature <$> model_layers w' = signature <$> model_layers w ∧
  name <$> model_layers w' = name <$> model_layers w.
Proof.
  apply (for_layers_invariant
           (λ w1, signature <$> model_layers w1 = signature <$> model_layers w ∧
                  name <$> model_layers w1 = name <$> model_layers w) positions);
    [|done].
  intros i l w0 r0 w0' _ [HPs HPn] Hl Hturn.
  destruct (load_layer_signatures _ _ _ _ _ Hl Hturn) as [Hs Hn].
  by rewrite Hs, Hn.
Qed.

End LoaderFacts.

(** *** The [try] and its handler *)

Lemma load_weights_unfold fs w :
  load_weights fs w =
    match h5py_File fs h5_path with
    | Raise e => (Raise e, w)
    | Ok f =>
        match decoded_attr (layer_names_attr (weight_group_of f)) with
        | Raise e => (Raise e, w)
        | Ok names =>
            match for_layers (load_layer (weight_group_of f) names)
                    (seq 0 (length (model_layers w))) w with
            | (Raise e, w1) => (Raise e, w1)
            | (Ok _, w1) => (Ok tt, printing w1 (loaded_lines w1))
            end
        end
    end.
Proof.
  unfold load_weights, mbind, M_bind, lift.
  destruct (h5py_File fs h5_path) as [f|e]; [|done].
  destruct (decoded_attr _) as [names|e]; [|done].
  unfold for_layer_in_model.
  destruct (for_layers _ _ w) as [[[]|e] w1]; [|done].
  unfold print_total_parameters, print, emit, printing, loaded_lines. simpl.
  by rewrite <-!(assoc_L (++)).
Qed.

Lemma startup_unfold fs model :
  startup fs model =
    match load_weights fs (before_loading model) with
    | (Ok _, w1) => (Ok tt, w1)
    | (Raise e, w1) => (Ok tt, printing w1 (error_lines e))
    end.
Proof.
  unfold startup, startup_script, mbind, M_bind, try_except. simpl.
  change (load_weights fs _) with (load_weights fs (before_loading model)).
  destruct (load_weights fs (before_loading model)) as [[[]|e] w1]; [done|].
  unfold on_load_error, mbind, M_bind, print, emit, printing, error_lines. simpl.
  by rewrite <-!(assoc_L (++)).
Qed.

(** Start-up always completes: no exception leaves the script. *)
Lemma startup_completes fs model : (startup fs model).1 = Ok tt.
Proof.
  rewrite startup_unfold.
  by destruct (load_weights fs (before_loading model)) as [[[]|e] w1].
Qed.

(** What the loader did to the layers, whatever the outcome. *)
Lemma startup_layers fs model :
  model_layers (startup fs model).2 = model ∨
  ∃ f names r w1,
    h5py_File fs h5_path = Ok f ∧
    decoded_attr (layer_names_attr (weight_group_of f)) = Ok names ∧
    for_layers (load_layer (weight_group_of f) names) (seq 0 (length model))
      (before_loading model) = (r, w1) ∧
    model_layers (startup fs model).2 = model_layers w1.
Proof.
  rewrite startup_unfold, load_weights_unfold.
  destruct (h5py_File fs h5_path) as [f|e] eqn:Hf; [|by left].
  destruct (decoded_attr _) as [names|e] eqn:Hnames; [|by left].
  right. exists f, names. simpl.
  destruct (for_layers _ _ _) as [r w1] eqn:Hrun.
  exists r, w1. by destruct r as [[]|e].
Qed.

(** Loading never changes a layer's name or signature: in every outcome the
    network keeps the parameter shapes its forward pass needs. *)
Lemma startup_signatures fs model :
  signature <$> model_layers (startup fs model).2 = signature <$> model ∧
  name <$> model_layers (startup fs model).2 = name <$> model.
Proof.
  destruct (startup_layers fs model) as [->|(f & names & r & w1 & _ & _ & Hrun & ->)];
    [done|].
  by apply for_layers_signatures in Hrun.
Qed.

Lemma layer_params_signature l l' :
  signature l = signature l' → layer_params l = layer_params l'.
Proof.
  unfold signature, layer_params. destruct l as [n ws], l' as [n' ws']. simpl.
  revert ws'. induction ws as [|t ws IH]; intros [|t' ws'] [=]; [done|].
  simpl. f_equal; [congruence|by apply IH].
Qed.

Lemma count_params_signature ls ls' :
  signature <$> ls = signature <$> ls' → count_params ls = count_params ls'.
Proof.
  revert ls'. induction ls as [|l ls IH]; intros [|l' ls'] [=]; [done|].
  simpl. f_equal; [by apply layer_params_signature|by apply IH].
Qed.

(** The state after start-up is the state in which the loop over the layers
    ended (or the state before loading, when the loop was never reached),
    followed by printed lines only. *)
Lemma startup_world fs model :
  ∃ w1 lines,
    (startup fs model).2 = printing w1 lines ∧
    Forall is_print lines ∧
    (w1 = before_loading model ∨
     ∃ f names r,
       h5py_File fs h5_path = Ok f ∧
       decoded_attr (layer_names_attr (weight_group_of f)) = Ok names ∧
       for_layers (load_layer (weight_group_of f) names) (seq 0 (length model))
         (before_loading model) = (r, w1)).
Proof.
  rewrite startup_unfold, load_weights_unfold.
  destruct (h5py_File fs h5_path) as [f|e] eqn:Hf.
  2:{ eexists _, _. split; [done|]. split; [|by left]. by repeat constructor. }
  destruct (decoded_attr _) as [names|e] eqn:Hnames.
  2:{ eexists _, _. split; [done|]. split; [|by left]. by repeat constructor. }
  simpl. destruct (for_layers _ _ _) as [[[]|e] w1] eqn:Hrun.
  - exists w1, (loaded_lines w1). split; [done|]. split; [by repeat constructor|].
    right. by exists f, names, (Ok tt).
  - exists w1, (error_lines e). split; [done|]. split; [by repeat constructor|].
    right. by exists f, names, (Raise e).
Qed.

(** ** The claims on the loader *)

(** C3. Every exception raised while the weights are loaded (opening the
    container, decoding its metadata, reading a tensor, assigning to a
    layer) is caught by the [except] clause around the loader: its cause is
    printed, the layers stay as they were when it was raised, and the
    start-up script ends normally. *)
Theorem loading_exception_is_caught fs model e w1 :
  load_weights fs (before_loading model) = (Raise e, w1) →
  (startup fs model).1 = Ok tt ∧
  model_layers (startup fs model).2 = model_layers w1 ∧
  trace (startup fs model).2 = trace w1 ++ [Print (OutErrorLoading e); Print OutRandomWeights] ∧
  status_of (health_check (startup fs model).2) = 200.
Proof.
  intros Hload. rewrite startup_unfold, Hload. done.
Qed.

(** C4. A layer whose name is not in the container's list of layer names
    goes through its turn of the loop without an exception and without a
    change, and after start-up it holds the parameters it was built with. *)
Theorem unlisted_layer_untouched fs model f names i l :
  h5py_File fs h5_path = Ok f →
  decoded_attr (layer_names_attr (weight_group_of f)) = Ok names →
  model !! i = Some l →
  name l ∉ names →
  (∀ w, load_layer (weight_group_of f) names i l w = (Ok tt, w)) ∧
  model_layers (startup fs model).2 !! i = Some l.
Proof.
  intros Hf Hnames Hl Hout.
  assert (∀ w, load_layer (weight_group_of f) names i l w = (Ok tt, w)) as Hturn.
  { intros w. rewrite load_layer_unfold. by rewrite bool_decide_eq_false_2. }
  split; [done|].
  destruct (startup_layers fs model)
    as [->|(f' & names' & r & w1 & Hf' & Hnames' & Hrun & ->)]; [done|].
  rewrite Hf in Hf'. injection Hf' as <-.
  rewrite Hnames in Hnames'. injection Hnames' as <-.
  revert Hrun.
  apply (for_layers_invariant _ _ (λ w, model_layers w !! i = Some l)); [|done].
  intros i' l' w r' w' _ HP Hl' Hb.
  destruct (decide (i' = i)) as [->|Hne].
  - rewrite HP in Hl'. injection Hl' as <-.
    rewrite Hturn in Hb. by injection Hb as <- <-.
  - rewrite <-HP. eapply load_layer_other; [done|]. congruence.
Qed.

(** C7. [GET /health] answers 200 with [model_loaded] true whatever the
    disk holds: the whole body is fixed by the model as it was built, so it
    is the same when the weight file is missing, unreadable or mismatched. *)
Theorem health_ignores_loading fs model :
  health_check (startup fs model).2 =
    Returned 200 {| status := "healthy";
                    model_loaded := true;
                    model_params := count_params model;
                    health_model_source := "h5_weights" |}.
Proof.
  unfold health_check. do 2 f_equal.
  apply count_params_signature, startup_signatures.
Qed.

(** C10. A layer that is listed in the container and whose sub-group
    records an empty list of weight names is not assigned to:
    [set_weights] is never called on it, its turn of the loop changes
    nothing, and after start-up it holds the parameters it was built with. *)
Theorem empty_weight_list_skips_assignment fs model f names i l g :
  h5py_File fs h5_path = Ok f →
  decoded_attr (layer_names_attr (weight_group_of f)) = Ok names →
  model !! i = Some l →
  name l ∈ names →
  groups (weight_group_of f) !! name l = Some g →
  weight_names_attr g = Some [] →
  (∀ w, load_layer (weight_group_of f) names i l w = (Ok tt, w)) ∧
  (∀ ws, SetWeights i ws ∉ trace (startup fs model).2) ∧
  model_layers (startup fs model).2 !! i = Some l.
Proof.
  intros Hf Hnames Hl Hin Hg Hempty.
  assert (∀ w, load_layer (weight_group_of f) names i l w = (Ok tt, w)) as Hturn.
  { intros w. rewrite load_layer_unfold, bool_decide_eq_true_2 by done.
    unfold read_layer_weights, getitem. rewrite Hg. simpl. by rewrite Hempty. }
  split; [done|].
  destruct (startup_world fs model) as (w1 & lines & -> & Hlines & Hw1).
  assert (model_layers w1 !! i = Some l ∧ ∀ ws, SetWeights i ws ∉ trace w1) as [HPl HPt].
  { destruct Hw1 as [->|(f' & names' & r & Hf' & Hnames' & Hrun)].
    { split; [done|]. by intros ws [=]%list_elem_of_singleton. }
    rewrite Hf in Hf'. injection Hf' as <-.
    rewrite Hnames in Hnames'. injection Hnames' as <-.
    revert Hrun.
    apply (for_layers_invariant _ _
             (λ w, model_layers w !! i = Some l ∧ ∀ ws, SetWeights i ws ∉ trace w)).
    - intros i' l' w r' w' _ [HP HT] Hl' Hb.
      destruct (decide (i' = i)) as [->|Hne].
      + rewrite HP in Hl'. injection Hl' as <-.
        rewrite Hturn in Hb. by injection Hb as <- <-.
      + split.
        * rewrite <-HP. eapply load_layer_other; [done|]. congruence.
        * intros ws. destruct (load_layer_trace _ _ _ _ _ _ _ Hb) as [->|[ws' ->]];
            [done|].
          rewrite elem_of_app, list_elem_of_singleton. intros [?|[=]]; [|done].
          by eapply HT.
    - split; [done|]. by intros ws [=]%list_elem_of_singleton. }
  split; [|done].
  intros ws. unfold printing. simpl. rewrite elem_of_app. intros [?|Hp].
  - by eapply HPt.
  - rewrite Forall_forall in Hlines. by apply Hlines in Hp.
Qed.

(** *** Where the loop stops *)

Lemma startup_with fs model f names r w1 :
  h5py_File fs h5_path = Ok f →
  decoded_attr (layer_names_attr (weight_group_of f)) = Ok names →
  for_layers (load_layer (weight_group_of f) names) (seq 0 (length model))
    (before_loading model) = (r, w1) →
  startup fs model =
    (Ok tt, printing w1 match r with
                        | Ok _ => loaded_lines w1
                        | Raise e => error_lines e
                        end).
Proof.
  intros Hf Hnames Hrun.
  rewrite startup_unfold, load_weights_unfold, Hf, Hnames. simpl.
  rewrite Hrun. by destruct r as [[]|e].
Qed.

Section Loop.

Context (weight_group : weight_group_t) (layer_names : list string).

Local Abbreviation body := (load_layer weight_group layer_names).

Lemma empty_signature l : signature l = [] → l = {| name := name l; weights := [] |}.
Proof. destruct l as [n [|t ts]]; [done|]. by intros [=]. Qed.

(** The turn of a layer with matching tensors. *)
Lemma load_layer_match i l ws w :
  model_layers w !! i = Some l →
  stored_match weight_group layer_names l ws →
  ∃ w', body i l w = (Ok tt, w') ∧
        model_layers w' = <[i := {| name := name l; weights := ws |}]> (model_layers w).
Proof.
  intros Hl (Hin & stored & Hread & Hs & Hws).
  rewrite load_layer_unfold, bool_decide_eq_true_2, Hread by done.
  destruct stored as [|t ts].
  - injection Hws as <-. exists w. split; [done|]. symmetry. apply list_insert_id.
    rewrite Hl. f_equal. by apply empty_signature.
  - rewrite set_weights_unfold, (Layer_set_weights_accepts l (t :: ts) ws) by done.
    by eexists.
Qed.

(** The turn of a layer that loads cleanly ends normally. *)
Lemma load_layer_clean i l w :
  loads_cleanly weight_group layer_names l →
  ∃ w', body i l w = (Ok tt, w').
Proof.
  intros [Hout|(ws & Hread & Hws)]; rewrite load_layer_unfold.
  - rewrite bool_decide_eq_false_2 by done. by eexists.
  - case_bool_decide; [|by eexists]. rewrite Hread.
    destruct ws as [|t ts]; [by eexists|].
    destruct Hws as [?|(Hs & vars & Hvars)]; [done|].
    rewrite set_weights_unfold, (Layer_set_weights_accepts l (t :: ts) vars) by done.
    by eexists.
Qed.

(** No other turn ends normally. *)
Lemma load_layer_returns i l w w' :
  body i l w = (Ok tt, w') → loads_cleanly weight_group layer_names l.
Proof.
  rewrite load_layer_unfold. case_bool_decide as Hin; [|by left].
  destruct (read_layer_weights weight_group (name l)) as [[|t ts]|e] eqn:Hread; [| |done].
  - intros _. right. exists []. auto.
  - rewrite set_weights_unfold. intros [= Hr _]. right. exists (t :: ts). split; [done|].
    right. destruct (Layer_set_weights l (t :: ts)) as [r l'] eqn:Hset.
    simpl in Hr. subst r.
    apply Layer_set_weights_returns in Hset as (Hs & vars & Hvars & _). eauto.
Qed.

(** The turn of a listed layer with tensors of another count or other shapes
    than it expects: [set_weights] is called, raises, and the layers are as
    they were. *)
Lemma load_layer_mismatch i l ws w :
  model_layers w !! i = Some l →
  name l ∈ layer_names →
  read_layer_weights weight_group (name l) = Ok ws →
  ws ≠ [] →
  shape <$> ws ≠ signature l →
  ∃ about,
    body i l w = (Raise (ValueError about),
                  {| model_layers := model_layers w;
                     trace := trace w ++ [SetWeights i ws] |}).
Proof.
  intros Hl Hin Hread Hne Hs.
  rewrite load_layer_unfold, bool_decide_eq_true_2, Hread by done.
  destruct ws as [|t ts]; [done|]. rewrite set_weights_unfold.
  destruct (Layer_set_weights_refuses l (t :: ts) Hs) as [about ->]. simpl.
  exists about. by rewrite list_insert_id.
Qed.

(** While the layers load cleanly the loop goes on, and a layer with
    matching tensors holds them once its turn has passed. *)
Lemma for_layers_clean_prefix n w :
  (∀ k lk, k < n → model_layers w !! k = Some lk →
           loads_cleanly weight_group layer_names lk) →
  ∃ w', for_layers body (seq 0 n) w = (Ok tt, w') ∧
        ∀ k lk ws, k < n → model_layers w !! k = Some lk →
                   stored_match weight_group layer_names lk ws →
                   model_layers w' !! k = Some {| name := name lk; weights := ws |}.
Proof.
  induction n as [|n IH]; intros Hclean.
  - exists w. split; [done|]. intros; lia.
  - destruct IH as (w1 & Hrun & Hdone).
    { intros k lk Hk. apply Hclean. lia. }
    rewrite seq_S, for_layers_app, Hrun, Nat.add_0_l. cbv beta iota.
    rewrite for_layers_cons.
    assert (model_layers w1 !! n = model_layers w !! n) as Hn.
    { eapply for_layers_other; [|done]. rewrite elem_of_seq. lia. }
    destruct (model_layers w1 !! n) as [ln|] eqn:Hln.
    + destruct (load_layer_clean n ln w1) as [w2 Hturn].
      { apply (Hclean n); [lia|done]. }
      rewrite Hturn. exists w2. split; [done|].
      intros k lk ws Hk Hlk Hmatch.
      destruct (decide (k = n)) as [->|Hne].
      * rewrite <-Hn in Hlk. injection Hlk as <-.
        destruct (load_layer_match n ln ws w1 Hln Hmatch) as (w2' & Hturn' & Hw2).
        rewrite Hturn in Hturn'. injection Hturn' as <-.
        rewrite Hw2. apply list_lookup_insert_eq. by eapply lookup_lt_Some.
      * rewrite (load_layer_other _ _ _ _ _ _ _ _ Hturn) by done.
        apply Hdone; [lia|done..].
    + exists w1. split; [done|].
      intros k lk ws Hk Hlk Hmatch.
      destruct (decide (k = n)) as [->|Hne]; [congruence|].
      apply Hdone; [lia|done..].
Qed.

(** The loop adds to the trace nothing but calls of [set_weights] on
    positions it walks. *)
Lemma for_layers_trace n w r w' :
  for_layers body (seq 0 n) w = (r, w') →
  ∃ calls, trace w' = trace w ++ calls ∧
           Forall (λ ev, ∃ j ws, ev = SetWeights j ws ∧ j < n) calls.
Proof.
  revert r w'. induction n as [|n IH]; intros r w'.
  - intros [= <- <-]. exists []. by rewrite app_nil_r.
  - rewrite seq_S, for_layers_app, Nat.add_0_l.
    destruct (for_layers body (seq 0 n) w) as [r1 w1] eqn:Hprefix.
    destruct (IH _ _ eq_refl) as (calls & Hcalls & Hbelow).
    assert (Forall (λ ev, ∃ j ws, ev = SetWeights j ws ∧ j < S n) calls) as Hbelow'.
    { eapply Forall_impl; [done|]. intros ev (j & ws & -> & Hj).
      exists j, ws. split; [done|lia]. }
    destruct r1 as [[]|e1]; [|intros [= <- <-]; by exists calls].
    rewrite for_layers_cons.
    destruct (model_layers w1 !! n) as [l|]; [|intros [= <- <-]; by exists calls].
    destruct (body n l w1) as [r2 w2] eqn:Hturn.
    assert (∃ calls0, trace w2 = trace w ++ calls0 ∧
              Forall (λ ev, ∃ j ws, ev = SetWeights j ws ∧ j < S n) calls0) as Hend.
    { destruct (load_layer_trace _ _ _ _ _ _ _ Hturn) as [->|[ws ->]]; [by exists calls|].
      exists (calls ++ [SetWeights n ws]). rewrite Hcalls, <-(assoc_L (++)).
      split; [done|]. apply Forall_app. split; [done|].
      repeat constructor. exists n, ws. split; [done|lia]. }
    destruct r2 as [[]|e2]; intros Heq; simpl in Heq; by injection Heq as <- <-.
Qed.

End Loop.

(** C1, as amended. The loop has no handler of its own.  When a listed
    layer's stored tensors (a non-empty list) do not have the count or the
    shapes the layer expects, and every layer before it went through its turn
    without an exception, then [set_weights] is called on that layer with the
    stored tensors and raises a [ValueError], and loading stops there: the
    call is the last one, the [ValueError] is the error that the [except]
    clause prints, and start-up completes.  Every layer before it whose
    stored tensors match holds them, as float32 arrays; every layer after it
    keeps the parameters it was built with, also when its stored tensors
    match; and every layer keeps its name and signature, so the network can
    still run. *)
Theorem mismatch_stops_loading fs model f names (i : nat) l ws :
  h5py_File fs h5_path = Ok f →
  decoded_attr (layer_names_attr (weight_group_of f)) = Ok names →
  model !! i = Some l →
  name l ∈ names →
  read_layer_weights (weight_group_of f) (name l) = Ok ws →
  ws ≠ [] →
  shape <$> ws ≠ signature l →
  (∀ k lk, k < i → model !! k = Some lk → loads_cleanly (weight_group_of f) names lk) →
  (startup fs model).1 = Ok tt ∧
  (∃ calls about,
     trace (startup fs model).2
       = Print OutBuilding :: calls
         ++ [ SetWeights i ws;
              Print (OutErrorLoading (ValueError about));
              Print OutRandomWeights ] ∧
     Forall (λ ev, ∃ j wsj, ev = SetWeights j wsj ∧ j < i) calls) ∧
  (∀ j lj wsj,
     j < i →
     model !! j = Some lj →
     stored_match (weight_group_of f) names lj wsj →
     model_layers (startup fs model).2 !! j = Some {| name := name lj; weights := wsj |}) ∧
  (∀ j, i < j → model_layers (startup fs model).2 !! j = model !! j) ∧
  signature <$> model_layers (startup fs model).2 = signature <$> model ∧
  name <$> model_layers (startup fs model).2 = name <$> model.
Proof.
  intros Hf Hnames Hl Hin Hread Hne Hs Hclean.
  split; [apply startup_completes|].
  assert (i < length model) as Hi by by eapply lookup_lt_Some.
  destruct (for_layers_clean_prefix (weight_group_of f) names i (before_loading model))
    as (w1 & Hprefix & Hdone); [done|].
  assert (∀ j, i ≤ j → model_layers w1 !! j = model !! j) as Hrest.
  { intros j Hj. apply (for_layers_other _ _ _ j _ _ _) in Hprefix; [done|].
    rewrite elem_of_seq. lia. }
  destruct (load_layer_mismatch (weight_group_of f) names i l ws w1) as [about Hturn];
    [by rewrite Hrest, Hl by lia|done..|].
  assert (for_layers (load_layer (weight_group_of f) names) (seq 0 (length model))
            (before_loading model)
          = (Raise (ValueError about),
             {| model_layers := model_layers w1;
                trace := trace w1 ++ [SetWeights i ws] |})) as Hrun.
  { replace (length model) with (i + S (length model - S i)) by lia.
    rewrite seq_app, for_layers_app, Hprefix, Nat.add_0_l, <-cons_seq, for_layers_cons.
    rewrite (Hrest i), Hl by lia. by rewrite Hturn. }
  rewrite (startup_with fs model f names _ _ Hf Hnames Hrun).
  pose proof (for_layers_signatures _ _ _ _ _ _ Hrun) as [Hsig Hname].
  destruct (for_layers_trace _ _ _ _ _ _ Hprefix) as (calls & Hcalls & Hbelow).
  unfold printing, error_lines. cbn [snd trace model_layers] in *.
  split; [|split; [|split; [|done]]].
  - exists calls, about. split; [|done]. rewrite Hcalls. simpl.
    by rewrite <-!(assoc_L (++)).
  - intros j lj wsj Hj Hlj Hmatch. by apply Hdone.
  - intros j Hj. apply Hrest. lia.
Qed.

(** *** The claims at concrete containers *)

Ltac by_evaluation :=
  match goal with
  | |- ?P => apply (bool_decide_unpack P); vm_compute; exact I
  end.

Lemma loading_exception_is_caught_witness :
  load_weights (disk late_mismatch_file) (before_loading small_model)
    = (Raise (ValueError "shape"), stopped_at_last_layer) ∧
  (startup (disk late_mismatch_file) small_model).1 = Ok tt ∧
  model_layers (startup (disk late_mismatch_file) small_model).2
    = [trained_dense; built_dropout; built_dense_1] ∧
  trace (startup (disk late_mismatch_file) small_model).2
    = trace stopped_at_last_layer
      ++ [Print (OutErrorLoading (ValueError "shape")); Print OutRandomWeights] ∧
  status_of (health_check (startup (disk late_mismatch_file) small_model).2) = 200.
Proof.
  split; [vm_compute; reflexivity|].
  apply (loading_exception_is_caught (disk late_mismatch_file) small_model
           (ValueError "shape") stopped_at_last_layer).
  vm_compute; reflexivity.
Defined.

(** The loader's other sources of exceptions end the same way. *)
Example missing_file_is_caught :
  startup no_file small_model
    = (Ok tt, printing (before_loading small_model) (error_lines OSError)).
Proof. vm_compute; reflexivity. Qed.

Example undecodable_name_is_caught :
  startup (disk undecodable_file) small_model
    = (Ok tt, printing (before_loading small_model)
                (error_lines (UnicodeDecodeError [Byte.xff]))).
Proof. vm_compute; reflexivity. Qed.

Example missing_dataset_is_caught :
  startup (disk truncated_file) small_model
    = (Ok tt, printing (before_loading small_model)
                (error_lines (KeyError "dense/kernel:0"))).
Proof. vm_compute; reflexivity. Qed.

(** Without a weight file the health check still reports a loaded model. *)
Example health_without_file :
  health_check (startup no_file small_model).2
    = Returned 200 {| status := "healthy"; model_loaded := true;
                      model_params := 9; health_model_source := "h5_weights" |}.
Proof. vm_compute; reflexivity. Qed.

(** A container that matches the network loads every layer. *)
Example trained_file_loads :
  model_layers (startup (disk trained_file) small_model).2
    = [ trained_dense; built_dropout;
        {| name := "dense_1"; weights := [tensor_of [2; 1] 7; tensor_of [1] 8] |} ].
Proof. vm_compute; reflexivity. Qed.

Lemma unlisted_layer_untouched_witness :
  (∀ w, load_layer (weight_group_of partial_file) ["dense"] 2 built_dense_1 w = (Ok tt, w)) ∧
  model_layers (startup (disk partial_file) small_model).2 !! 2 = Some built_dense_1.
Proof.
  apply (unlisted_layer_untouched (disk partial_file) small_model partial_file
           ["dense"] 2 built_dense_1).
  - vm_compute; reflexivity.
  - vm_compute; reflexivity.
  - reflexivity.
  - by_evaluation.
Defined.

Lemma empty_weight_list_skips_assignment_witness :
  (∀ w, load_layer (weight_group_of trained_file) ["dense"; "dropout"; "dense_1"]
          1 built_dropout w = (Ok tt, w)) ∧
  (∀ ws, SetWeights 1 ws ∉ trace (startup (disk trained_file) small_model).2) ∧
  model_layers (startup (disk trained_file) small_model).2 !! 1 = Some built_dropout.
Proof.
  apply (empty_weight_list_skips_assignment (disk trained_file) small_model trained_file
           ["dense"; "dropout"; "dense_1"] 1 built_dropout empty_group).
  - vm_compute; reflexivity.
  - vm_compute; reflexivity.
  - reflexivity.
  - by_evaluation.
  - vm_compute; reflexivity.
  - reflexivity.
Defined.

Lemma mismatch_stops_loading_witness :
  (startup (disk middle_mismatch_file) small_model).1 = Ok tt ∧
  (∃ calls about,
     trace (startup (disk middle_mismatch_file) small_model).2
       = Print OutBuilding :: calls
         ++ [ SetWeights 1 [tensor_of [2] 9];
              Print (OutErrorLoading (ValueError about));
              Print OutRandomWeights ] ∧
     Forall (λ ev, ∃ j wsj, ev = SetWeights j wsj ∧ j < 1) calls) ∧
  (∀ j lj wsj,
     j < 1 →
     small_model !! j = Some lj →
     stored_match (weight_group_of middle_mismatch_file)
       ["dense"; "dropout"; "dense_1"] lj wsj →
     model_layers (startup (disk middle_mismatch_file) small_model).2 !! j
       = Some {| name := name lj; weights := wsj |}) ∧
  (∀ j, 1 < j →
        model_layers (startup (disk middle_mismatch_file) small_model).2 !! j
          = small_model !! j) ∧
  signature <$> model_layers (startup (disk middle_mismatch_file) small_model).2
    = signature <$> small_model ∧
  name <$> model_layers (startup (disk middle_mismatch_file) small_model).2
    = name <$> small_model.
Proof.
  apply (mismatch_stops_loading (disk middle_mismatch_file) small_model middle_mismatch_file
           ["dense"; "dropout"; "dense_1"] 1 built_dropout [tensor_of [2] 9]).
  - vm_compute; reflexivity.
  - vm_compute; reflexivity.
  - reflexivity.
  - by_evaluation.
  - vm_compute; reflexivity.
  - discriminate.
  - vm_compute; discriminate.
  - intros k lk Hk Hlk. destruct k as [|k]; [|lia]. injection Hlk as <-.
    right. exists [tensor_of [2; 2] 5; tensor_of [2] 6].
    split; [vm_compute; reflexivity|]. right. split; [reflexivity|].
    exists [tensor_of [2; 2] 5; tensor_of [2] 6]. vm_compute; reflexivity.
Defined.

(** At that container the first layer is loaded, the loop stops at the
    second, and the third, whose stored tensors match, is left as built. *)
Example middle_mismatch_outcome :
  startup (disk middle_mismatch_file) small_model
    = (Ok tt,
       {| model_layers := [trained_dense; built_dropout; built_dense_1];
          trace := [ Print OutBuilding;
                     SetWeights 0 [tensor_of [2; 2] 5; tensor_of [2] 6];
                     SetWeights 1 [tensor_of [2] 9];
                     Print (OutErrorLoading (ValueError "count"));
                     Print OutRandomWeights ] |}).
Proof. vm_compute; reflexivity. Qed.

(** C1, as the specification words it, fails: with the first layer's kernel
    stored in the wrong shape, the last layer, whose stored tensors match,
    is not assigned. *)
Lemma failure_is_per_layer_refuted :
  ¬ failure_is_per_layer (disk mismatched_file) small_model.
Proof.
  intros Hclaim.
  specialize (Hclaim mismatched_file ["dense"; "dropout"; "dense_1"] 0 built_dense).
  specialize (Hclaim eq_refl eq_refl eq_refl).
  assert (stored_mismatch (weight_group_of mismatched_file)
            ["dense"; "dropout"; "dense_1"] built_dense) as Hbad.
  { split; [by_evaluation|].
    exists [tensor_of [3; 2] 5; tensor_of [2] 6]. split; [vm_compute; reflexivity|].
    vm_compute; discriminate. }
  specialize (Hclaim Hbad 2 built_dense_1 [tensor_of [2; 1] 7; tensor_of [1] 8]).
  assert (stored_match (weight_group_of mismatched_file)
            ["dense"; "dropout"; "dense_1"] built_dense_1
            [tensor_of [2; 1] 7; tensor_of [1] 8]) as Hgood.
  { split; [by_evaluation|]. exists [tensor_of [2; 1] 7; tensor_of [1] 8].
    repeat split; vm_compute; reflexivity. }
  specialize (Hclaim ltac:(lia) eq_refl Hgood).
  vm_compute in Hclaim. discriminate.
Qed.

(** * Properties of the request handlers *)

(** ** Arithmetic *)

Local Open Scope Q_scope.

Lemma round_half_even_near x :
  - (1 # 2) <= inject_Z (round_half_even x) - x ∧ inject_Z (round_half_even x) - x <= 1 # 2.
Proof.
  unfold round_half_even. cbv zeta.
  pose proof (Qfloor_le x) as Hlo. pose proof (Qlt_floor x) as Hhi.
  rewrite inject_Z_plus in Hhi. change (inject_Z 1) with 1 in Hhi.
  destruct (Qcompare_spec (x - inject_Z (Qfloor x)) (1 # 2)) as [Heq|Hlt|Hgt].
  - destruct (Z.even (Qfloor x)).
    + split; lra.
    + rewrite inject_Z_plus. change (inject_Z 1) with 1. split; lra.
  - split; lra.
  - rewrite inject_Z_plus. change (inject_Z 1) with 1. split; lra.
Qed.

(** [round(x, 2)] is within half a hundredth of [x]. *)
Lemma round2_near x : - (1 # 200) <= round2 x - x ∧ round2 x - x <= 1 # 200.
Proof.
  unfold round2. destruct (round_half_even_near (x * 100)) as [Hlo Hhi].
  set (r := inject_Z (round_half_even (x * 100))) in *.
  assert (r / 100 == r * (1 # 100)) as -> by (unfold Qdiv; reflexivity).
  split; lra.
Qed.

Lemma total_Permutation xs ys : xs ≡ₚ ys → total xs == total ys.
Proof.
  induction 1 as [|x xs ys _ IH|x y xs|xs ys zs _ IH1 _ IH2]; simpl.
  - reflexivity.
  - rewrite IH. reflexivity.
  - lra.
  - rewrite IH1. exact IH2.
Qed.

(** Rounding every percentage moves the total by at most half a hundredth
    per entry. *)
Lemma total_rounded_percentages (p : list Q) :
  - (inject_Z (Z.of_nat (length p)) * (1 # 200))
    <= total ((λ x, round2 (x * 100)) <$> p) - 100 * total p ∧
  total ((λ x, round2 (x * 100)) <$> p) - 100 * total p
    <= inject_Z (Z.of_nat (length p)) * (1 # 200).
Proof.
  induction p as [|x p [IHlo IHhi]].
  - split; vm_compute; discriminate.
  - cbn [length fmap list_fmap total foldr].
    fold (total ((λ x, round2 (x * 100)) <$> p)). fold (total p).
    rewrite Nat2Z.inj_succ, <-Z.add_1_r, inject_Z_plus. change (inject_Z 1) with 1.
    destruct (round2_near (x * 100)) as [Hlo Hhi].
    split; lra.
Qed.

Local Close Scope Q_scope.

(** [np.max] is the element at [np.argmax]. *)
Lemma argmax_from_max (l : list Q) best_i best i xs :
  l !! best_i = Some best →
  (∀ k x, xs !! k = Some x → l !! (i + k) = Some x) →
  l !! argmax_from best_i best i xs = Some (max_from best xs).
Proof.
  revert best_i best i. induction xs as [|x xs IH]; intros best_i best i Hbest Hxs.
  - done.
  - simpl. destruct (Qle_bool x best).
    + apply IH; [done|]. intros k y Hk.
      replace (S i + k) with (i + S k) by lia. by apply Hxs.
    + apply IH.
      * rewrite <-(Nat.add_0_r i). by apply Hxs.
      * intros k y Hk. replace (S i + k) with (i + S k) by lia. by apply Hxs.
Qed.

Lemma np_argmax_max v c top :
  np_argmax v = Ok c → np_max v = Ok top → v !! c = Some top.
Proof.
  destruct v as [|x xs]; [done|]. intros [= <-] [= <-].
  by apply (argmax_from_max (x :: xs)).
Qed.

(** ** Dictionary comprehensions *)

Section Dict.

Context {A : Type} (entry : A → result (string * Q)).

(** A comprehension that ends normally evaluated every entry. *)
Lemma dict_comprehension_entries items d m :
  dict_comprehension entry items d = Ok m →
  ∀ i, i ∈ items → ∃ k v, entry i = Ok (k, v).
Proof.
  revert d. induction items as [|a rest IH]; intros d Hm i Hi.
  - by apply elem_of_nil in Hi.
  - simpl in Hm. destruct (entry a) as [[ka va]|e] eqn:Ha; [|done].
    apply elem_of_cons in Hi as [->|Hi]; [by eauto|]. by eapply IH.
Qed.

(** A key all of whose entries carry the value [v] is bound to [v]. *)
Lemma dict_comprehension_lookup items d m k v :
  dict_comprehension entry items d = Ok m →
  (∀ i v', i ∈ items → entry i = Ok (k, v') → v' = v) →
  d !! k = Some v ∨ (∃ i, i ∈ items ∧ entry i = Ok (k, v)) →
  m !! k = Some v.
Proof.
  revert d. induction items as [|a rest IH]; intros d Hm Hsame Hfrom.
  - injection Hm as <-. destruct Hfrom as [?|(i & []%elem_of_nil & _)]. done.
  - simpl in Hm. destruct (entry a) as [[ka va]|e] eqn:Ha; [|done].
    apply (IH _ Hm).
    { intros i v' Hi. apply Hsame. by right. }
    destruct (decide (ka = k)) as [->|Hne].
    + left. rewrite lookup_insert_eq. f_equal. apply (Hsame a); [left|done].
    + rewrite lookup_insert_ne by done.
      destruct Hfrom as [?|(i & [->|Hi]%elem_of_cons & Hk)]; [by left|congruence|].
      right. by exists i.
Qed.

(** Every key of the result was there before or comes from an entry. *)
Lemma dict_comprehension_keys items d m k :
  dict_comprehension entry items d = Ok m →
  is_Some (m !! k) →
  is_Some (d !! k) ∨ ∃ i v, i ∈ items ∧ entry i = Ok (k, v).
Proof.
  revert d. induction items as [|a rest IH]; intros d Hm Hk.
  - injection Hm as <-. by left.
  - simpl in Hm. destruct (entry a) as [[ka va]|e] eqn:Ha; [|done].
    destruct (IH _ Hm Hk) as [Hd|(i & v & Hi & Hv)].
    + destruct (decide (ka = k)) as [->|Hne].
      * right. exists a, va. split; [left|done].
      * left. by rewrite lookup_insert_ne in Hd.
    + right. exists i, v. split; [by right|done].
Qed.

End Dict.

(** ** The class labels and the probability mapping *)

Lemma class_names_NoDup : NoDup class_names.
Proof. apply (bool_decide_unpack (NoDup class_names)). vm_compute. exact I. Qed.

Lemma probability_entry_Ok p i k v :
  probability_entry p i = Ok (k, v) ↔
  class_names !! i = Some k ∧ ∃ x, p !! i = Some x ∧ v = round2 (x * 100).
Proof.
  unfold probability_entry, subscript, mbind, result_bind, mret, result_ret.
  destruct (class_names !! i) as [k'|].
  - destruct (p !! i) as [x|]; split.
    + intros [= <- <-]. eauto.
    + by intros [[= <-] (x' & [= <-] & ->)].
    + done.
    + by intros [_ (x' & [=] & _)].
  - split; [done|]. by intros [[=] _].
Qed.

Section Probabilities.

Context (p : list Q) (m : gmap string Q).
Hypothesis built_from :
  dict_comprehension (probability_entry p) (seq 0 (length class_names)) ∅ = Ok m.

(** Each label is bound to the rounded percentage at its position. *)
Lemma probabilities_lookup i k :
  class_names !! i = Some k →
  ∃ x, p !! i = Some x ∧ m !! k = Some (round2 (x * 100)).
Proof using built_from.
  intros Hk.
  assert (i ∈ seq 0 (length class_names)) as Hi.
  { apply elem_of_seq. apply lookup_lt_Some in Hk. lia. }
  destruct (dict_comprehension_entries _ _ _ _ built_from i Hi) as (k' & v & Hentry).
  pose proof Hentry as [Hk' (x & Hx & ->)]%probability_entry_Ok.
  assert (k' = k) as -> by congruence.
  exists x. split; [done|].
  apply (dict_comprehension_lookup _ _ _ _ _ _ built_from).
  - intros i' v' _ [Hi' (x' & Hx' & ->)]%probability_entry_Ok.
    assert (i' = i) as -> by (eapply NoDup_lookup; [apply class_names_NoDup|done..]).
    congruence.
  - right. by exists i.
Qed.

(** The mapping has no other bindings. *)
Lemma probabilities_binding k v :
  m !! k = Some v ↔
  ∃ i x, class_names !! i = Some k ∧ p !! i = Some x ∧ v = round2 (x * 100).
Proof using built_from.
  split.
  - intros Hv.
    destruct (dict_comprehension_keys _ _ _ _ k built_from) as [Hd|(i & v' & _ & Hentry)];
      [by eexists|by apply is_Some_None in Hd|].
    apply probability_entry_Ok in Hentry as [Hk _].
    destruct (probabilities_lookup i k Hk) as (x & Hx & Hm).
    exists i, x. split; [done|]. split; [done|]. congruence.
  - intros (i & x & Hk & Hx & ->).
    destruct (probabilities_lookup i k Hk) as (x' & Hx' & Hm). congruence.
Qed.

(** The keys are the class labels. *)
Lemma probabilities_dom : dom m = list_to_set class_names.
Proof using built_from.
  apply set_eq. intros k. rewrite elem_of_dom, elem_of_list_to_set. split.
  - intros [v (i & x & Hk & _)%probabilities_binding].
    by eapply list_elem_of_lookup_2.
  - intros [i Hk]%list_elem_of_lookup_1.
    destruct (probabilities_lookup i k Hk) as (x & _ & Hm). by eexists.
Qed.

(** The bindings, in some order, pair the labels with the rounded
    percentages of the first ten entries of the prediction. *)
Lemma probabilities_to_list :
  length p = length class_names →
  map_to_list m ≡ₚ zip class_names ((λ x, round2 (x * 100)) <$> p).
Proof using built_from.
  intros Hlen. apply NoDup_Permutation.
  - apply NoDup_map_to_list.
  - apply (NoDup_fmap_1 fst). rewrite fst_zip.
    + apply class_names_NoDup.
    + rewrite length_fmap. lia.
  - intros [k v]. rewrite elem_of_map_to_list, probabilities_binding.
    rewrite list_elem_of_lookup. split.
    + intros (i & x & Hk & Hx & ->). exists i.
      apply lookup_zip_Some. split; [done|]. by rewrite list_lookup_fmap, Hx.
    + intros (i & [Hk Hv]%lookup_zip_Some). exists i.
      rewrite list_lookup_fmap in Hv.
      destruct (p !! i) as [x|]; [|done]. injection Hv as <-. by exists x.
Qed.

End Probabilities.

(** ** Preprocessing *)

Lemma length_bind_const {A B} (f : A → list B) (l : list A) n :
  (∀ x, length (f x) = n) → length (l ≫= f) = length l * n.
Proof.
  intros Hf. induction l as [|x l IH]; [done|].
  rewrite bind_cons, length_app, Hf, IH. simpl. lia.
Qed.

Lemma length_raster width height n value :
  length (raster width height n value) = height * (width * n).
Proof.
  unfold raster.
  rewrite (length_bind_const _ _ (width * n)), length_seq; [done|]. intros y.
  rewrite (length_bind_const _ _ n), length_seq; [done|]. intros x.
  rewrite (length_bind_const _ _ 1), length_seq; [lia|done].
Qed.

Lemma uint8_over_255 b : in_unit_interval (inject_Z (Z.of_N (Byte.to_N b)) / 255)%Q.
Proof.
  pose proof (Byte.to_N_bounded b) as Hb.
  unfold in_unit_interval, Qle, Qdiv, Qmult, Qinv, inject_Z. simpl. lia.
Qed.

(** C5. Whatever the decoded image's size and mode, and whatever values the
    conversion to RGB and the resampling filter produce, the preprocessed
    array has shape 128 x 128 x 3, holds that many elements, and each of
    them lies in [0, 1]; the batch handed to the network has shape
    1 x 128 x 128 x 3. *)
Theorem preprocess_shape_and_range rgb_value resampled img :
  shape (preprocess rgb_value resampled img) = [128; 128; 3] ∧
  length (data (preprocess rgb_value resampled img)) = 128 * 128 * 3 ∧
  Forall in_unit_interval (data (preprocess rgb_value resampled img)) ∧
  shape (np_expand_dims_0 (preprocess rgb_value resampled img)) = [1; 128; 128; 3].
Proof.
  unfold preprocess, np_divide_255, np_array, resize, convert_RGB.
  cbn [shape data mode image_size pixels fst snd bands np_expand_dims_0].
  split; [done|]. split; [|split; [|done]].
  - rewrite !length_fmap, length_raster. lia.
  - rewrite Forall_fmap, Forall_fmap. apply Forall_forall. intros b _.
    apply uint8_over_255.
Qed.

(** ** The analysis *)

Section HandlerFacts.

Context (Image_open : list byte → result Image)
        (rgb_value : Image → nat → nat → nat → byte)
        (resampled : Image → nat * nat → nat → nat → nat → byte)
        (predict : list layer → ndarray Q → result (list Q))
        (str : exn → string).

Local Abbreviation body_of := (analyze_body Image_open rgb_value resampled predict).
Local Abbreviation handler := (analyze_image Image_open rgb_value resampled predict str).

(** What a normal end of the [try] body means. *)
Lemma analyze_body_Ok model file body :
  body_of model file = Ok body →
  ∃ ct img prediction c top d m,
    content_type file = Some ct ∧
    String.prefix "image/" ct = true ∧
    Image_open (contents file) = Ok img ∧
    predict model (np_expand_dims_0 (preprocess rgb_value resampled img)) = Ok prediction ∧
    np_argmax prediction = Ok c ∧
    np_max prediction = Ok top ∧
    class_names !! c = Some d ∧
    dict_comprehension (probability_entry prediction) (seq 0 (length class_names)) ∅ = Ok m ∧
    body = {| disease := d;
              confidence := round2 (top * 100);
              is_healthy := bool_decide (d = "Healthy");
              predicted_class_index := c;
              all_probabilities := m;
              message := "Analysis complete";
              model_source := "best_tomato_model.h5 (trained)" |}.
Proof.
  unfold analyze_body, mbind, result_bind, mret, result_ret, subscript.
  destruct (content_type file) as [ct|]; [|done].
  destruct (String.prefix "image/" ct) eqn:Hct; [|done]. cbn [negb].
  destruct (Image_open (contents file)) as [img|] eqn:Himg; [|done].
  destruct (predict model _) as [prediction|] eqn:Hpredict; [|done].
  destruct (np_argmax prediction) as [c|] eqn:Hc; [|done].
  destruct (np_max prediction) as [top|] eqn:Htop; [|done].
  destruct (class_names !! c) as [d|] eqn:Hd; [|done].
  destruct (dict_comprehension _ _ _) as [m|] eqn:Hm; [|done].
  intros [= <-]. by eexists ct, img, prediction, c, top, d, m.
Qed.

Lemma handler_Returned w file code body :
  handler w file = Returned code body →
  code = 200 ∧ body_of (model_layers w) file = Ok body.
Proof.
  unfold analyze_image. destruct (analyze_body _ _ _ _ _ _) as [b|e]; [|done].
  by intros [= <- <-].
Qed.

(** Whatever the [try] body raises reaches the client as a 500. *)
Lemma handler_Failed w file e :
  body_of (model_layers w) file = Raise e →
  handler w file = Failed 500 ("Error: " +:+ str e).
Proof. unfold analyze_image. by intros ->. Qed.

(** The check of the content type raises inside the [try]. *)
Lemma non_image_raises model file ct :
  content_type file = Some ct →
  String.prefix "image/" ct = false →
  body_of model file = Raise (HTTPException 400 "File must be an image").
Proof. unfold analyze_body. intros -> Hct. simpl. by rewrite Hct. Qed.

(** An upload without a content type fails on [None.startswith]. *)
Lemma missing_content_type_status w file :
  content_type file = None →
  handler w file = Failed 500 ("Error: " +:+ str AttributeError).
Proof. intros Hfile. apply handler_Failed. unfold analyze_body. by rewrite Hfile. Qed.

(** Every upload whose content type does not start with [image/] is
    answered with status 500. *)
Lemma non_image_status w file ct :
  content_type file = Some ct →
  String.prefix "image/" ct = false →
  status_of (handler w file) = 500.
Proof.
  intros Hfile Hct.
  by rewrite (handler_Failed _ _ _ (non_image_raises _ _ _ Hfile Hct)).
Qed.

Lemma label_at_9 c d :
  class_names !! c = Some d → d = "Healthy" ↔ c = 9.
Proof.
  do 10 (destruct c as [|c]; [intros [= <-]; split; intros; first [done|lia]|]).
  done.
Qed.

End HandlerFacts.

(** ** The claims on the analysis *)

(** C2, at its failing input. For an upload declared as [text/plain] the
    body of the [try] raises the [HTTPException] with status 400, and the
    [except Exception] clause around it replaces that by one with status
    500, which is what the client gets. *)
Theorem text_plain_upload_status Image_open rgb_value resampled predict str w raw :
  analyze_body Image_open rgb_value resampled predict (model_layers w)
    {| content_type := Some "text/plain"; contents := raw |}
    = Raise (HTTPException 400 "File must be an image") ∧
  analyze_image Image_open rgb_value resampled predict str w
    {| content_type := Some "text/plain"; contents := raw |}
    = Failed 500 ("Error: " +:+ str (HTTPException 400 "File must be an image")) ∧
  status_of (analyze_image Image_open rgb_value resampled predict str w
               {| content_type := Some "text/plain"; contents := raw |}) ≠ 400.
Proof.
  assert (analyze_body Image_open rgb_value resampled predict (model_layers w)
            {| content_type := Some "text/plain"; contents := raw |}
          = Raise (HTTPException 400 "File must be an image")) as Hraised.
  { by apply (non_image_raises _ _ _ _ _ _ "text/plain"). }
  split; [done|].
  rewrite (handler_Failed _ _ _ _ str _ _ _ Hraised). split; [done|]. simpl. lia.
Qed.

(** C8. In every successful answer, [is_healthy] is true exactly when the
    arg-max class index of the prediction vector is 9, which is exactly when
    the label returned, the entry of the class list at that index, is
    ['Healthy']. *)
Theorem healthy_iff_last_class
  Image_open rgb_value resampled predict str w file code body :
  analyze_image Image_open rgb_value resampled predict str w file = Returned code body →
  (∃ img prediction,
     Image_open (contents file) = Ok img ∧
     predict (model_layers w) (np_expand_dims_0 (preprocess rgb_value resampled img))
       = Ok prediction ∧
     np_argmax prediction = Ok (predicted_class_index body)) ∧
  class_names !! predicted_class_index body = Some (disease body) ∧
  (is_healthy body = true ↔ predicted_class_index body = 9) ∧
  (is_healthy body = true ↔ disease body = "Healthy").
Proof.
  intros [_ Hbody]%handler_Returned.
  apply analyze_body_Ok in Hbody
    as (ct & img & prediction & c & top & d & m & _ & _ & Himg & Hp & Hc & _ & Hd & _ & ->).
  cbn [is_healthy predicted_class_index disease].
  split; [by exists img, prediction|]. split; [done|].
  rewrite bool_decide_eq_true. split; [by apply label_at_9|done].
Qed.

(** C9. In every successful answer, the mapping [all_probabilities] holds
    the field [confidence] under the returned label: both are the
    probability of the arg-max class, the largest of the prediction vector,
    times 100 and rounded to two decimals. *)
Theorem confidence_is_probability_of_disease
  Image_open rgb_value resampled predict str w file code body :
  analyze_image Image_open rgb_value resampled predict str w file = Returned code body →
  all_probabilities body !! disease body = Some (confidence body) ∧
  ∃ img prediction top,
    Image_open (contents file) = Ok img ∧
    predict (model_layers w) (np_expand_dims_0 (preprocess rgb_value resampled img))
      = Ok prediction ∧
    np_argmax prediction = Ok (predicted_class_index body) ∧
    np_max prediction = Ok top ∧
    prediction !! predicted_class_index body = Some top ∧
    confidence body = round2 (top * 100).
Proof.
  intros [_ Hbody]%handler_Returned.
  apply analyze_body_Ok in Hbody
    as (ct & img & prediction & c & top & d & m & _ & _ & Himg & Hp & Hc & Htop & Hd & Hm & ->).
  cbn [all_probabilities disease confidence predicted_class_index].
  pose proof (np_argmax_max _ _ _ Hc Htop) as Hat.
  split; [|by exists img, prediction, top].
  destruct (probabilities_lookup _ _ Hm c d Hd) as (x & Hx & ->).
  congruence.
Qed.

(** C6. In every successful answer the keys of [all_probabilities] are the
    ten class labels, and, the network's output being a softmax over ten
    classes, its ten values add up to 100 give or take 0.1. *)
Theorem probabilities_cover_labels_and_sum
    Image_open rgb_value resampled predict str w file code body :
  (∀ model batch p, predict model batch = Ok p → softmax_output p) →
  analyze_image Image_open rgb_value resampled predict str w file = Returned code body →
  dom (all_probabilities body) = list_to_set class_names ∧
  size (all_probabilities body) = 10 ∧
  (Qabs (sum_of_values (all_probabilities body) - 100) <= 1 # 10)%Q.
Proof.
  intros Hsoftmax [_ Hbody]%handler_Returned.
  apply analyze_body_Ok in Hbody
    as (ct & img & p & c & top & d & m & _ & _ & _ & Hp & _ & _ & _ & Hm & ->).
  cbn [all_probabilities].
  apply Hsoftmax in Hp as [Hlen Hsum].
  pose proof (probabilities_dom _ _ Hm) as Hdom.
  split; [done|]. split.
  - rewrite <-size_dom, Hdom, size_list_to_set; [done|apply class_names_NoDup].
  - assert (sum_of_values m == total ((λ x, round2 (x * 100)) <$> p))%Q as ->.
    { unfold sum_of_values. apply total_Permutation.
      rewrite (probabilities_to_list _ _ Hm) by done.
      rewrite snd_zip; [done|]. rewrite length_fmap, Hlen. done. }
    destruct (total_rounded_percentages p) as [Hlo Hhi].
    rewrite Hlen in Hlo, Hhi. change (inject_Z (Z.of_nat 10)) with 10%Q in Hlo, Hhi.
    apply Qabs_Qle_condition in Hsum as [Hslo Hshi].
    apply Qabs_Qle_condition. split; lra.
Qed.

(** *** The claims at a concrete upload *)

Lemma probabilities_cover_labels_and_sum_witness :
  analyze_image decode_grey grey_to_rgb nearest fixed_predict no_text after_startup grey_png
    = Returned 200 example_body ∧
  dom example_probabilities = list_to_set class_names ∧
  size example_probabilities = 10 ∧
  (Qabs (sum_of_values example_probabilities - 100) <= 1 # 10)%Q.
Proof.
  split; [vm_compute; reflexivity|].
  apply (probabilities_cover_labels_and_sum decode_grey grey_to_rgb nearest fixed_predict
           no_text after_startup grey_png 200 example_body).
  - intros model batch p [= <-]. split; [reflexivity|]. vm_compute. discriminate.
  - vm_compute; reflexivity.
Defined.

Lemma healthy_iff_last_class_witness :
  (∃ img prediction,
     decode_grey (contents grey_png) = Ok img ∧
     fixed_predict (model_layers after_startup)
       (np_expand_dims_0 (preprocess grey_to_rgb nearest img)) = Ok prediction ∧
     np_argmax prediction = Ok (predicted_class_index example_body)) ∧
  class_names !! predicted_class_index example_body = Some (disease example_body) ∧
  (is_healthy example_body = true ↔ predicted_class_index example_body = 9) ∧
  (is_healthy example_body = true ↔ disease example_body = "Healthy").
Proof.
  apply (healthy_iff_last_class decode_grey grey_to_rgb nearest fixed_predict no_text
           after_startup grey_png 200 example_body).
  vm_compute; reflexivity.
Defined.

Lemma confidence_is_probability_of_disease_witness :
  all_probabilities example_body !! disease example_body = Some (confidence example_body) ∧
  ∃ img prediction top,
    decode_grey (contents grey_png) = Ok img ∧
    fixed_predict (model_layers after_startup)
      (np_expand_dims_0 (preprocess grey_to_rgb nearest img)) = Ok prediction ∧
    np_argmax prediction = Ok (predicted_class_index example_body) ∧
    np_max prediction = Ok top ∧
    prediction !! predicted_class_index example_body = Some top ∧
    confidence example_body = round2 (top * 100).
Proof.
  apply (confidence_is_probability_of_disease decode_grey grey_to_rgb nearest fixed_predict
           no_text after_startup grey_png 200 example_body).
  vm_compute; reflexivity.
Defined.

(** An answer for a diseased leaf: the flag is false and the index is not 9. *)
Example diseased_answer :
  ∃ body,
    analyze_image decode_grey grey_to_rgb nearest
      (λ _ _, Ok [3 # 4; 1 # 8; 1 # 16; 1 # 32; 1 # 64; 1 # 128; 1 # 256; 1 # 512;
                  1 # 1024; 1 # 1024]%Q)
      no_text after_startup grey_png = Returned 200 body ∧
    disease body = "Bacterial_spot" ∧
    is_healthy body = false ∧
    predicted_class_index body = 0.
Proof. eexists. vm_compute. split; [reflexivity|done]. Qed.

(** The upload of a text file under the concrete libraries. *)
Example text_file_answer :
  status_of (analyze_image decode_grey grey_to_rgb nearest fixed_predict no_text
               after_startup text_file) = 500.
Proof. reflexivity. Qed.

(** * Further properties of the weight loader *)

Section LoaderCalls.

Context (weight_group : weight_group_t) (layer_names : list string).

Local Abbreviation body := (load_layer weight_group layer_names).

(** A turn of the loop calls [set_weights] at most once, on its own
    position, for a listed layer, with the tensors read for the layer's
    name, and only when there is at least one. *)
Lemma load_layer_call i l w r w' :
  body i l w = (r, w') →
  trace w' = trace w ∨
  ∃ ws, trace w' = trace w ++ [SetWeights i ws] ∧
        name l ∈ layer_names ∧
        read_layer_weights weight_group (name l) = Ok ws ∧
        ws ≠ [].
Proof.
  rewrite load_layer_unfold. case_bool_decide as Hin; [|naive_solver].
  destruct (read_layer_weights weight_group (name l)) as [[|t ts]|e] eqn:Hread;
    [naive_solver| |naive_solver].
  rewrite set_weights_unfold. intros [= <- <-]. right. by exists (t :: ts).
Qed.

(** A turn whose tensors cannot be read raises what the read raised and
    changes nothing. *)
Lemma load_layer_unreadable i l e w :
  name l ∈ layer_names →
  read_layer_weights weight_group (name l) = Raise e →
  body i l w = (Raise e, w).
Proof.
  intros Hin Hread. by rewrite load_layer_unfold, bool_decide_eq_true_2, Hread.
Qed.

Lemma set_weights_positions_app t1 t2 :
  set_weights_positions (t1 ++ t2) = set_weights_positions t1 ++ set_weights_positions t2.
Proof. apply omap_app. Qed.

Lemma set_weights_positions_prints lines :
  Forall is_print lines → set_weights_positions lines = [].
Proof.
  induction 1 as [|[i ws|o] lines Hp _ IH]; [done|done|exact IH].
Qed.

(** The calls made while the loop walks the first [n] positions are on
    increasing positions below [n]. *)
Lemma for_layers_positions n w r w' :
  for_layers body (seq 0 n) w = (r, w') →
  ∃ called,
    set_weights_positions (trace w') = set_weights_positions (trace w) ++ called ∧
    Sorted.StronglySorted lt called ∧
    Forall (λ i, i < n) called.
Proof.
  revert r w'. induction n as [|n IH]; intros r w'.
  - intros [= <- <-]. exists []. rewrite app_nil_r. repeat constructor.
  - rewrite seq_S, for_layers_app, Nat.add_0_l.
    destruct (for_layers body (seq 0 n) w) as [r1 w1] eqn:Hprefix.
    destruct (IH _ _ eq_refl) as (called & Hcalled & Hsorted & Hbelow).
    assert (Forall (λ i, i < S n) called) as Hbelow'.
    { eapply Forall_impl; [done|]. simpl. lia. }
    destruct r1 as [[]|e1]; [|intros [= <- <-]; by exists called].
    rewrite for_layers_cons.
    destruct (model_layers w1 !! n) as [l|]; [|intros [= <- <-]; by exists called].
    destruct (body n l w1) as [r2 w2] eqn:Hturn.
    assert ((r, w') = (r2, w2) → ∃ called0,
              set_weights_positions (trace w') = set_weights_positions (trace w) ++ called0 ∧
              Sorted.StronglySorted lt called0 ∧ Forall (λ i, i < S n) called0) as Hend.
    { intros [= -> ->].
      destruct (load_layer_call _ _ _ _ _ Hturn) as [->|(ws & -> & _)]; [by exists called|].
      exists (called ++ [n]).
      rewrite set_weights_positions_app, Hcalled, <-(assoc_L (++)). split; [done|]. split.
      - apply sorting.StronglySorted_app_2; [|done|repeat constructor].
        intros i j Hi ->%list_elem_of_singleton.
        rewrite Forall_forall in Hbelow. by apply Hbelow.
      - apply Forall_app. split; [done|]. repeat constructor. }
    destruct r2 as [[]|e2]; intros Heq; apply Hend; [|done].
    simpl in Heq. by injection Heq as <- <-.
Qed.

(** Whatever the loop has called [set_weights] with was read from the
    container under the name of a listed layer of the model. *)
Lemma for_layers_calls positions (model : list layer) w r w' :
  name <$> model_layers w = name <$> model →
  (∀ i ws, SetWeights i ws ∉ trace w) →
  for_layers body positions w = (r, w') →
  ∀ i ws, SetWeights i ws ∈ trace w' →
    ∃ l, model !! i = Some l ∧
         name l ∈ layer_names ∧
         read_layer_weights weight_group (name l) = Ok ws ∧
         ws ≠ [].
Proof.
  intros Hnames Hnone Hrun.
  assert (name <$> model_layers w' = name <$> model ∧
          ∀ i ws, SetWeights i ws ∈ trace w' →
            ∃ l, model !! i = Some l ∧ name l ∈ layer_names ∧
                 read_layer_weights weight_group (name l) = Ok ws ∧ ws ≠ []) as [_ ?];
    [|done].
  revert Hrun.
  apply (for_layers_invariant _ _
           (λ w1, name <$> model_layers w1 = name <$> model ∧
                  ∀ i ws, SetWeights i ws ∈ trace w1 →
                    ∃ l, model !! i = Some l ∧ name l ∈ layer_names ∧
                         read_layer_weights weight_group (name l) = Ok ws ∧ ws ≠ [])).
  - intros i l w0 r0 w0' _ [HPn HPc] Hl Hturn. split.
    + rewrite <-HPn. by apply (load_layer_signatures _ _ _ _ _ _ _ Hl Hturn).
    + intros j ws.
      destruct (load_layer_call _ _ _ _ _ Hturn) as [->|(ws' & -> & Hin & Hread & Hne)];
        [apply HPc|].
      rewrite elem_of_app, list_elem_of_singleton. intros [?|[= -> ->]]; [by apply HPc|].
      assert ((name <$> model) !! i = Some (name l)) as Hname.
      { by rewrite <-HPn, list_lookup_fmap, Hl. }
      rewrite list_lookup_fmap in Hname.
      destruct (model !! i) as [l0|]; [|done]. injection Hname as Hname.
      exists l0. rewrite Hname. done.
  - split; [done|]. intros i ws Hin. by apply Hnone in Hin.
Qed.

(** Every tensor a layer holds when the loop ends was there when it began
    or is the conversion to float32 of the tensor read at the same place of
    the layer's stored list. *)
Lemma for_layers_tensors positions (model : list layer) w r w' :
  model_layers w = model →
  for_layers body positions w = (r, w') →
  ∀ i l' k t, model_layers w' !! i = Some l' → weights l' !! k = Some t →
    ∃ l, model !! i = Some l ∧
         (weights l !! k = Some t ∨
          ∃ ws stored, name l ∈ layer_names ∧
                       read_layer_weights weight_group (name l) = Ok ws ∧
                       ws !! k = Some stored ∧
                       np_asarray_float32 stored = Ok t).
Proof.
  intros Hmodel Hrun.
  assert (name <$> model_layers w' = name <$> model ∧
          ∀ i l' k t, model_layers w' !! i = Some l' → weights l' !! k = Some t →
            ∃ l, model !! i = Some l ∧
                 (weights l !! k = Some t ∨
                  ∃ ws stored, name l ∈ layer_names ∧
                               read_layer_weights weight_group (name l) = Ok ws ∧
                               ws !! k = Some stored ∧
                               np_asarray_float32 stored = Ok t)) as [_ ?]; [|done].
  revert Hrun. apply (for_layers_invariant _ _ (λ w1,
    name <$> model_layers w1 = name <$> model ∧
    ∀ i l' k t, model_layers w1 !! i = Some l' → weights l' !! k = Some t →
      ∃ l, model !! i = Some l ∧
           (weights l !! k = Some t ∨
            ∃ ws stored, name l ∈ layer_names ∧
                         read_layer_weights weight_group (name l) = Ok ws ∧
                         ws !! k = Some stored ∧
                         np_asarray_float32 stored = Ok t))).
  - intros i l w0 r0 w0' _ [HPn HP] Hl Hturn.
    split; [rewrite <-HPn; by apply (load_layer_signatures _ _ _ _ _ _ _ Hl Hturn)|].
    destruct (load_layer_step _ _ _ _ _ _ _ Hturn)
      as [Hsame|(ws & l1 & _ & Hread & Hin & Hset & Hw')].
    { by rewrite Hsame. }
    intros j l' k t Hj Hk. rewrite Hw' in Hj.
    destruct (decide (j = i)) as [->|Hne]; [|rewrite list_lookup_insert_ne in Hj by done;
                                             by eapply HP].
    rewrite list_lookup_insert_eq in Hj by by eapply lookup_lt_Some.
    injection Hj as <-.
    destruct (Layer_set_weights_spec _ _ _ _ Hset) as (_ & _ & Heach).
    destruct (Heach k t Hk) as [Hheld|(stored & Hstored & Hconv)].
    + by apply (HP i l).
    + assert ((name <$> model) !! i = Some (name l)) as Hname.
      { by rewrite <-HPn, list_lookup_fmap, Hl. }
      rewrite list_lookup_fmap in Hname.
      destruct (model !! i) as [l0|]; [|done]. injection Hname as Hname.
      exists l0. split; [done|]. right. exists ws, stored. by rewrite Hname.
  - split; [by rewrite Hmodel|].
    intros i l' k t Hi Hk. rewrite Hmodel in Hi. exists l'. eauto.
Qed.

End LoaderCalls.

Section LoaderPrints.

Context (weight_group : weight_group_t) (layer_names : list string).

(** The loop prints nothing. *)
Lemma for_layers_prints positions w r w' o :
  for_layers (load_layer weight_group layer_names) positions w = (r, w') →
  Print o ∈ trace w' → Print o ∈ trace w.
Proof.
  apply (for_layers_invariant _ _ (λ w1, Print o ∈ trace w1 → Print o ∈ trace w));
    [|done].
  intros i l w0 r0 w0' _ HP _ Hturn.
  destruct (load_layer_trace _ _ _ _ _ _ _ Hturn) as [->|[ws ->]]; [done|].
  rewrite elem_of_app, list_elem_of_singleton. intros [?|[=]]. by apply HP.
Qed.

(** When no layer of the model is listed, the loop changes nothing. *)
Lemma for_layers_unlisted positions w r w' :
  (∀ l, l ∈ model_layers w → name l ∉ layer_names) →
  for_layers (load_layer weight_group layer_names) positions w = (r, w') →
  r = Ok tt ∧ w' = w.
Proof.
  intros Hnone. revert w' r. induction positions as [|i rest IH]; intros w' r.
  - by intros [= <- <-].
  - rewrite for_layers_cons. destruct (model_layers w !! i) as [l|] eqn:Hl; [|apply IH].
    rewrite load_layer_unfold, bool_decide_eq_false_2; [apply IH|].
    apply Hnone. by eapply list_elem_of_lookup_2.
Qed.

End LoaderPrints.

(** ** What the loader calls and writes *)

(** X1. The calls of [set_weights] during start-up are on strictly increasing
    positions, so no layer is assigned twice; each call is for a layer whose
    name the container lists and passes the tensors read under that name,
    at least one. *)
Theorem set_weights_calls_in_order fs model :
  Sorted.StronglySorted lt (set_weights_positions (trace (startup fs model).2)) ∧
  ∀ i ws, SetWeights i ws ∈ trace (startup fs model).2 →
    ∃ f names l,
      h5py_File fs h5_path = Ok f ∧
      decoded_attr (layer_names_attr (weight_group_of f)) = Ok names ∧
      model !! i = Some l ∧
      name l ∈ names ∧
      read_layer_weights (weight_group_of f) (name l) = Ok ws ∧
      ws ≠ [].
Proof.
  destruct (startup_world fs model) as (w1 & lines & -> & Hlines & Hw1).
  unfold printing. cbn [trace].
  rewrite set_weights_positions_app, (set_weights_positions_prints lines Hlines), app_nil_r.
  destruct Hw1 as [->|(f & names & r & Hf & Hnames & Hrun)].
  { split; [constructor|]. intros i ws [[=]%list_elem_of_singleton|Hin]%elem_of_app.
    rewrite Forall_forall in Hlines. by apply Hlines in Hin. }
  split.
  - destruct (for_layers_positions _ _ _ _ _ _ Hrun) as (called & -> & Hsorted & _).
    done.
  - intros i ws [Hin|Hin]%elem_of_app.
    + destruct (for_layers_calls (weight_group_of f) names _ model (before_loading model) _ _ eq_refl
                  ltac:(by intros ? ? [=]%list_elem_of_singleton) Hrun i ws Hin)
        as (l & Hl & Hlisted & Hread & Hne).
      by exists f, names, l.
    + rewrite Forall_forall in Hlines. by apply Hlines in Hin.
Qed.

(** X2. Every tensor a layer holds after start-up is the one it was built with
    at that place, or the conversion to float32 of the tensor at that place
    of the list read from the container under the layer's name: the loader
    writes nothing else, also when a call of [set_weights] raises half-way. *)
Theorem loaded_tensors_are_built_or_stored fs model (i : nat) l' (k : nat) t :
  model_layers (startup fs model).2 !! i = Some l' →
  weights l' !! k = Some t →
  ∃ l, model !! i = Some l ∧
       (weights l !! k = Some t ∨
        ∃ f names ws stored,
          h5py_File fs h5_path = Ok f ∧
          decoded_attr (layer_names_attr (weight_group_of f)) = Ok names ∧
          name l ∈ names ∧
          read_layer_weights (weight_group_of f) (name l) = Ok ws ∧
          ws !! k = Some stored ∧
          np_asarray_float32 stored = Ok t).
Proof.
  destruct (startup_layers fs model)
    as [->|(f & names & r & w1 & Hf & Hnames & Hrun & ->)].
  { intros Hi Hk. exists l'. eauto. }
  intros Hi Hk.
  destruct (for_layers_tensors (weight_group_of f) names _ model (before_loading model) _ _ eq_refl Hrun
              i l' k t Hi Hk) as (l & Hl & [Hbuilt|(ws & stored & Hin & Hread & Hws & Hconv)]).
  - exists l. eauto.
  - exists l. split; [done|]. right. by exists f, names, ws, stored.
Qed.

Lemma loaded_tensors_are_built_or_stored_witness :
  ∃ l, small_model !! 2 = Some l ∧
       (weights l !! 0 = Some (tensor_of [2; 1] 16777216) ∨
        ∃ f names ws stored,
          h5py_File (disk wide_file) h5_path = Ok f ∧
          decoded_attr (layer_names_attr (weight_group_of f)) = Ok names ∧
          name l ∈ names ∧
          read_layer_weights (weight_group_of f) (name l) = Ok ws ∧
          ws !! 0 = Some stored ∧
          np_asarray_float32 stored = Ok (tensor_of [2; 1] 16777216)).
Proof.
  apply (loaded_tensors_are_built_or_stored (disk wide_file) small_model 2
           {| name := "dense_1"; weights := [tensor_of [2; 1] 16777216; tensor_of [1] 8] |}
           0 (tensor_of [2; 1] 16777216)).
  - vm_compute; reflexivity.
  - reflexivity.
Defined.

(** A kernel stored in float64 reaches the layer rounded to float32: of
    2^24 + 1 the layer holds 2^24. *)
Example wide_kernel_is_rounded :
  model_layers (startup (disk wide_file) small_model).2
    = [ trained_dense; built_dropout;
        {| name := "dense_1"; weights := [tensor_of [2; 1] 16777216; tensor_of [1] 8] |} ] ∧
  float64_tensor_of [2; 1] 16777217 ≠ tensor_of [2; 1] 16777216 ∧
  float64_tensor_of [2; 1] 16777217 ≠ float64_tensor_of [2; 1] 16777216.
Proof. split; [vm_compute; reflexivity|]. split; vm_compute; discriminate. Qed.

(** When the conversion of a layer's second array raises, the first array
    has been assigned and stays: the layer is left half loaded, and the
    layers after it as built. *)
Example text_bias_outcome :
  startup (disk text_bias_file) small_model
    = (Ok tt,
       {| model_layers := [ {| name := "dense";
                               weights := [tensor_of [2; 2] 5; tensor_of [2] 0] |};
                            built_dropout; built_dense_1 ];
          trace := [ Print OutBuilding;
                     SetWeights 0 [tensor_of [2; 2] 5; text_tensor_of [2]];
                     Print (OutErrorLoading
                              (ValueError "could not convert string to float"));
                     Print OutRandomWeights ] |}).
Proof. vm_compute; reflexivity. Qed.

(** ** Containers that load completely, not at all, or in part *)

(** A layer goes through its turn without an exception exactly when it
    loads cleanly. *)
Lemma loads_cleanly_iff weight_group layer_names l :
  loads_cleanly weight_group layer_names l ↔
  ∀ i w, ∃ w', load_layer weight_group layer_names i l w = (Ok tt, w').
Proof.
  split.
  - intros Hclean i w. by apply load_layer_clean.
  - intros Hturn. destruct (Hturn 0 (built [])) as [w' Hw'].
    by eapply load_layer_returns.
Qed.

(** X3. When every layer loads cleanly, start-up prints the success lines and
    no error, and every layer whose stored tensors match holds them, as
    float32 arrays. *)
Theorem clean_load_assigns_stored_tensors fs model f names :
  h5py_File fs h5_path = Ok f →
  decoded_attr (layer_names_attr (weight_group_of f)) = Ok names →
  (∀ k lk, model !! k = Some lk → loads_cleanly (weight_group_of f) names lk) →
  Print OutLoaded ∈ trace (startup fs model).2 ∧
  (∀ e, Print (OutErrorLoading e) ∉ trace (startup fs model).2) ∧
  ∀ k lk ws,
    model !! k = Some lk →
    stored_match (weight_group_of f) names lk ws →
    model_layers (startup fs model).2 !! k = Some {| name := name lk; weights := ws |}.
Proof.
  intros Hf Hnames Hclean.
  destruct (for_layers_clean_prefix (weight_group_of f) names (length model)
              (before_loading model)) as (w1 & Hrun & Hdone).
  { intros k lk _. apply Hclean. }
  rewrite (startup_with fs model f names (Ok tt) w1 Hf Hnames Hrun).
  unfold printing, loaded_lines. cbn [snd trace model_layers]. split; [|split].
  - rewrite elem_of_app. right. left.
  - intros e [Hin|Hin]%elem_of_app.
    + apply (for_layers_prints _ _ _ _ _ _ _ Hrun) in Hin.
      by apply list_elem_of_singleton in Hin.
    + repeat (apply elem_of_cons in Hin as [[=]|Hin]). by apply elem_of_nil in Hin.
  - intros k lk ws Hk Hmatch. apply Hdone; [|done..]. by eapply lookup_lt_Some.
Qed.

Lemma clean_load_assigns_stored_tensors_witness :
  Print OutLoaded ∈ trace (startup (disk wide_file) small_model).2 ∧
  (∀ e, Print (OutErrorLoading e) ∉ trace (startup (disk wide_file) small_model).2) ∧
  ∀ k lk ws,
    small_model !! k = Some lk →
    stored_match (weight_group_of wide_file) ["dense"; "dropout"; "dense_1"] lk ws →
    model_layers (startup (disk wide_file) small_model).2 !! k
      = Some {| name := name lk; weights := ws |}.
Proof.
  apply (clean_load_assigns_stored_tensors (disk wide_file) small_model wide_file
           ["dense"; "dropout"; "dense_1"]).
  - vm_compute; reflexivity.
  - vm_compute; reflexivity.
  - intros k lk Hk. right.
    destruct k as [|[|[|k]]]; [..|done]; injection Hk as <-.
    + exists [tensor_of [2; 2] 5; tensor_of [2] 6]. split; [vm_compute; reflexivity|].
      right. split; [reflexivity|].
      exists [tensor_of [2; 2] 5; tensor_of [2] 6]. vm_compute; reflexivity.
    + exists []. split; [vm_compute; reflexivity|]. by left.
    + exists [float64_tensor_of [2; 1] 16777217; tensor_of [1] 8].
      split; [vm_compute; reflexivity|]. right. split; [reflexivity|].
      exists [tensor_of [2; 1] 16777216; tensor_of [1] 8]. vm_compute; reflexivity.
Defined.

(** X4. When the file cannot be opened or its list of layer names does not
    decode, start-up prints that error and the model is exactly as built:
    no layer is read and [set_weights] is never called. *)
Theorem unreadable_container_leaves_model_as_built fs model e :
  recorded_layer_names fs = Raise e →
  startup fs model = (Ok tt, printing (before_loading model) (error_lines e)).
Proof.
  unfold recorded_layer_names, mbind, result_bind. intros Hnames.
  rewrite startup_unfold, load_weights_unfold.
  destruct (h5py_File fs h5_path) as [f|e1]; [|by injection Hnames as ->].
  by rewrite Hnames.
Qed.

Lemma unreadable_container_leaves_model_as_built_witness :
  startup no_file small_model
    = (Ok tt, printing (before_loading small_model) (error_lines OSError)).
Proof.
  apply (unreadable_container_leaves_model_as_built no_file small_model OSError).
  reflexivity.
Defined.



(** X6. When the container lists none of the model's layer names (the list is
    missing or empty, or the layers were named differently), nothing is
    assigned, [set_weights] is never called, and the loader still prints
    that the model was loaded successfully. *)
Theorem no_listed_layer_prints_success fs model f names :
  h5py_File fs h5_path = Ok f →
  decoded_attr (layer_names_attr (weight_group_of f)) = Ok names →
  (∀ l, l ∈ model → name l ∉ names) →
  startup fs model
    = (Ok tt, printing (before_loading model) (loaded_lines (before_loading model))).
Proof.
  intros Hf Hnames Hnone.
  destruct (for_layers (load_layer (weight_group_of f) names) (seq 0 (length model))
              (before_loading model)) as [r w1] eqn:Hrun.
  destruct (for_layers_unlisted _ names _ (before_loading model) _ _ Hnone Hrun) as [-> ->].
  by rewrite (startup_with fs model f names (Ok tt) (before_loading model) Hf Hnames Hrun).
Qed.

Lemma no_listed_layer_prints_success_witness :
  startup (disk trained_file) renamed_model
    = (Ok tt, printing (before_loading renamed_model)
                (loaded_lines (before_loading renamed_model))).
Proof.
  apply (no_listed_layer_prints_success (disk trained_file) renamed_model trained_file
           ["dense"; "dropout"; "dense_1"]).
  - vm_compute; reflexivity.
  - vm_compute; reflexivity.
  - intros l Hl.
    repeat (apply elem_of_cons in Hl as [->|Hl]; [by_evaluation|]).
    by apply elem_of_nil in Hl.
Defined.

(** A container without the list of layer names is such a case. *)
Example unlabelled_file_prints_success :
  startup (disk unlabelled_file) small_model
    = (Ok tt, printing (before_loading small_model)
                (loaded_lines (before_loading small_model))).
Proof. vm_compute; reflexivity. Qed.

(** X7. When a listed layer's tensors cannot be read (its sub-group or one of
    its datasets is missing, or a weight name does not decode) and the
    layers before it loaded cleanly, loading stops at that layer with the
    exception of the read: it is the error printed, [set_weights] is not
    called on that layer, and that layer and all after it are as built. *)
Theorem unreadable_layer_stops_loading fs model f names (i : nat) l e :
  h5py_File fs h5_path = Ok f →
  decoded_attr (layer_names_attr (weight_group_of f)) = Ok names →
  model !! i = Some l →
  name l ∈ names →
  read_layer_weights (weight_group_of f) (name l) = Raise e →
  (∀ k lk, k < i → model !! k = Some lk → loads_cleanly (weight_group_of f) names lk) →
  (Print (OutErrorLoading e) ∈ trace (startup fs model).2) ∧
  (Print OutLoaded ∉ trace (startup fs model).2) ∧
  (∀ ws, SetWeights i ws ∉ trace (startup fs model).2) ∧
  ∀ j, i ≤ j → model_layers (startup fs model).2 !! j = model !! j.
Proof.
  intros Hf Hnames Hl Hin Hread Hclean.
  assert (i < length model) as Hi by by eapply lookup_lt_Some.
  destruct (for_layers_clean_prefix (weight_group_of f) names i (before_loading model))
    as (w1 & Hprefix & _); [done|].
  assert (∀ j, i ≤ j → model_layers w1 !! j = model !! j) as Hrest.
  { intros j Hj. apply (for_layers_other _ _ _ j _ _ _) in Hprefix; [done|].
    rewrite elem_of_seq. lia. }
  assert (for_layers (load_layer (weight_group_of f) names) (seq 0 (length model))
            (before_loading model) = (Raise e, w1)) as Hrun.
  { replace (length model) with (i + S (length model - S i)) by lia.
    rewrite seq_app, for_layers_app, Hprefix, Nat.add_0_l, <-cons_seq, for_layers_cons.
    rewrite (Hrest i), Hl by lia.
    by rewrite (load_layer_unreadable _ _ _ _ _ _ Hin Hread). }
  rewrite (startup_with fs model f names (Raise e) w1 Hf Hnames Hrun).
  unfold printing, error_lines. cbn [snd trace model_layers].
  split; [|split; [|split]].
  - rewrite elem_of_app. right. left.
  - intros [Hp|Hp]%elem_of_app.
    + apply (for_layers_prints _ _ _ _ _ _ _ Hprefix) in Hp.
      by apply list_elem_of_singleton in Hp.
    + repeat (apply elem_of_cons in Hp as [[=]|Hp]). by apply elem_of_nil in Hp.
  - intros ws [Hc|Hc]%elem_of_app.
    + destruct (for_layers_positions _ _ _ _ _ _ Hprefix) as (called & Hcalled & _ & Hbelow).
      assert (i ∈ set_weights_positions (trace w1)) as Hpos.
      { apply list_elem_of_omap. by exists (SetWeights i ws). }
      rewrite Hcalled in Hpos. simpl in Hpos.
      rewrite Forall_forall in Hbelow. apply Hbelow in Hpos. lia.
    + repeat (apply elem_of_cons in Hc as [[=]|Hc]). by apply elem_of_nil in Hc.
  - done.
Qed.

Lemma unreadable_layer_stops_loading_witness :
  (Print (OutErrorLoading (KeyError "dropout"))
     ∈ trace (startup (disk gapped_file) small_model).2) ∧
  (Print OutLoaded ∉ trace (startup (disk gapped_file) small_model).2) ∧
  (∀ ws, SetWeights 1 ws ∉ trace (startup (disk gapped_file) small_model).2) ∧
  ∀ j, 1 ≤ j → model_layers (startup (disk gapped_file) small_model).2 !! j
               = small_model !! j.
Proof.
  apply (unreadable_layer_stops_loading (disk gapped_file) small_model gapped_file
           ["dense"; "dropout"; "dense_1"] 1 built_dropout (KeyError "dropout")).
  - vm_compute; reflexivity.
  - vm_compute; reflexivity.
  - reflexivity.
  - by_evaluation.
  - vm_compute; reflexivity.
  - intros k lk Hk Hlk. destruct k as [|k]; [|lia]. injection Hlk as <-.
    right. exists [tensor_of [2; 2] 5; tensor_of [2] 6].
    split; [vm_compute; reflexivity|]. right. split; [reflexivity|].
    exists [tensor_of [2; 2] 5; tensor_of [2] 6]. vm_compute; reflexivity.
Defined.

(** ** Decoding the names *)

Lemma byte_in_spec lo hi b :
  byte_in lo hi b = true ↔ (lo <= Byte.to_N b)%N ∧ (Byte.to_N b <= hi)%N.
Proof. unfold byte_in. by rewrite andb_true_iff, !N.leb_le. Qed.

Lemma utf8_valid_ascii raw : Forall is_ascii raw → utf8_valid raw = true.
Proof.
  induction 1 as [|b raw Hb _ IH]; [done|].
  cbn [utf8_valid]. rewrite (proj2 (byte_in_spec 0 127 b)); [done|].
  unfold is_ascii in Hb. lia.
Qed.

(** X8. A list of ASCII names reads the same whether the container holds it as
    byte strings or as text: the loader gets exactly those names. *)
Theorem ascii_names_decode (ns : list string) :
  Forall ascii_text ns →
  decoded_attr (Some ((λ s, AttrBytes (String.list_byte_of_string s)) <$> ns)) = Ok ns ∧
  decoded_attr (Some (AttrStr <$> ns)) = Ok ns.
Proof.
  unfold decoded_attr. cbn [default from_option id].
  induction 1 as [|s ns Hs _ [IHb IHs]]; [done|].
  rewrite !fmap_cons. cbn [comprehension decode_item].
  unfold bytes_decode. rewrite (utf8_valid_ascii _ Hs), String.string_of_list_byte_of_string.
  by rewrite IHb, IHs.
Qed.

Lemma ascii_names_decode_witness :
  decoded_attr (names_attr ["conv2d"; "batch_normalization"; "dense_1"])
    = Ok ["conv2d"; "batch_normalization"; "dense_1"] ∧
  decoded_attr (Some (AttrStr <$> ["conv2d"; "batch_normalization"; "dense_1"]))
    = Ok ["conv2d"; "batch_normalization"; "dense_1"].
Proof.
  apply (ascii_names_decode ["conv2d"; "batch_normalization"; "dense_1"]).
  repeat constructor; by_evaluation.
Defined.

Ltac byte_ranges :=
  unfold never_in_utf8, continuation in *;
  repeat match goal with
         | H : _ && _ = true |- _ => apply andb_true_iff in H as [? ?]
         | H : _ || _ = true |- _ => apply orb_true_iff in H as [?|?]
         | H : byte_in _ _ _ = true |- _ => apply byte_in_spec in H
         | H : _ ∨ _ |- _ => destruct H
         end.

(** A byte sequence with a byte that no UTF-8 encoding contains does not
    decode. *)
Lemma utf8_valid_rejects n raw b :
  length raw ≤ n → b ∈ raw → never_in_utf8 b → utf8_valid raw = false.
Proof.
  revert raw. induction n as [|n IH]; intros raw Hlen Hin Hbad.
  { destruct raw; [by apply elem_of_nil in Hin|simpl in Hlen; lia]. }
  destruct raw as [|b0 r0]; [by apply elem_of_nil in Hin|].
  cbn [utf8_valid]. simpl in Hlen.
  destruct (byte_in 0 127 b0) eqn:E0.
  { apply IH; [lia| |done].
    apply elem_of_cons in Hin as [->|?]; [|done]. byte_ranges; lia. }
  destruct r0 as [|b1 r1]; [done|]. simpl in Hlen.
  destruct (byte_in 194 223 b0 && continuation b1) eqn:E1.
  { apply IH; [lia| |done].
    apply elem_of_cons in Hin as [->|Hin]; [byte_ranges; lia|].
    apply elem_of_cons in Hin as [->|?]; [|done]. byte_ranges; lia. }
  destruct r1 as [|b2 r2]; [done|]. simpl in Hlen.
  match goal with |- (if ?c then _ else _) = _ => destruct c eqn:E2 end.
  { apply IH; [lia| |done].
    apply elem_of_cons in Hin as [->|Hin]; [byte_ranges; lia|].
    apply elem_of_cons in Hin as [->|Hin]; [byte_ranges; lia|].
    apply elem_of_cons in Hin as [->|?]; [|done]. byte_ranges; lia. }
  destruct r2 as [|b3 r3]; [done|]. simpl in Hlen.
  match goal with |- (if ?c then _ else _) = _ => destruct c eqn:E3 end; [|done].
  apply IH; [lia| |done].
  apply elem_of_cons in Hin as [->|Hin]; [byte_ranges; lia|].
  apply elem_of_cons in Hin as [->|Hin]; [byte_ranges; lia|].
  apply elem_of_cons in Hin as [->|Hin]; [byte_ranges; lia|].
  apply elem_of_cons in Hin as [->|?]; [|done]. byte_ranges; lia.
Qed.

Lemma decode_item_raises n e : decode_item n = Raise e → ∃ raw, e = UnicodeDecodeError raw.
Proof.
  destruct n as [raw|s]; [|done]. unfold decode_item, bytes_decode.
  destruct (utf8_valid raw); [done|]. intros [= <-]. by eexists.
Qed.

(** A comprehension over a list with an element on which [f] raises, raises. *)
Lemma comprehension_raises {A B} (f : A → result B) xs x e :
  x ∈ xs → f x = Raise e → ∃ e', comprehension f xs = Raise e' ∧ ∃ x', x' ∈ xs ∧ f x' = Raise e'.
Proof.
  intros Hin Hx. induction xs as [|y xs IH]; [by apply elem_of_nil in Hin|].
  cbn [comprehension]. destruct (f y) as [z|e0] eqn:Hy.
  - apply elem_of_cons in Hin as [->|Hin]; [congruence|].
    destruct (IH Hin) as (e' & -> & x' & Hx' & Hfx').
    exists e'. split; [done|]. exists x'. split; [by right|done].
  - exists e0. split; [done|]. exists y. split; [left|done].
Qed.

Lemma startup_unreadable fs model e :
  recorded_layer_names fs = Raise e →
  startup fs model = (Ok tt, printing (before_loading model) (error_lines e)).
Proof.
  unfold recorded_layer_names, mbind, result_bind. intros Hnames.
  rewrite startup_unfold, load_weights_unfold.
  destruct (h5py_File fs h5_path) as [f|e1]; [|by injection Hnames as ->].
  by rewrite Hnames.
Qed.

(** X9. A list of layer names with a byte-string entry that holds a byte no
    UTF-8 text contains (C0, C1, F5 to FF) makes the whole load fail: a
    [UnicodeDecodeError] is printed and the model stays as built, whatever
    else the container holds. *)
Theorem undecodable_name_aborts_load fs model f items raw b :
  h5py_File fs h5_path = Ok f →
  layer_names_attr (weight_group_of f) = Some items →
  AttrBytes raw ∈ items →
  b ∈ raw →
  never_in_utf8 b →
  ∃ raw',
    startup fs model
      = (Ok tt, printing (before_loading model) (error_lines (UnicodeDecodeError raw'))).
Proof.
  intros Hf Hitems Hitem Hb Hbad.
  assert (decode_item (AttrBytes raw) = Raise (UnicodeDecodeError raw)) as Hraw.
  { unfold decode_item, bytes_decode.
    by rewrite (utf8_valid_rejects (length raw) raw b). }
  destruct (comprehension_raises decode_item items _ _ Hitem Hraw)
    as (e' & Hall & x' & _ & Hx').
  destruct (decode_item_raises _ _ Hx') as [raw' ->].
  exists raw'. apply startup_unreadable.
  unfold recorded_layer_names, mbind, result_bind, decoded_attr.
  by rewrite Hf, Hitems.
Qed.

Lemma undecodable_name_aborts_load_witness :
  ∃ raw',
    startup (disk undecodable_file) small_model
      = (Ok tt, printing (before_loading small_model)
                  (error_lines (UnicodeDecodeError raw'))).
Proof.
  apply (undecodable_name_aborts_load (disk undecodable_file) small_model undecodable_file
           [AttrBytes [Byte.xff]] [Byte.xff] Byte.xff).
  - vm_compute; reflexivity.
  - reflexivity.
  - left.
  - left.
  - right. reflexivity.
Defined.

(** * Further properties of the request handlers *)

(** ** Rounding and the arg-max *)

Local Open Scope Q_scope.

Lemma round_half_even_between x :
  (Qfloor x <= round_half_even x)%Z ∧ (round_half_even x <= Qfloor x + 1)%Z.
Proof.
  unfold round_half_even. cbv zeta.
  destruct (x - inject_Z (Qfloor x) ?= 1 # 2); [destruct (Z.even (Qfloor x))|..]; lia.
Qed.

(** Rounding half to even never reverses an order. *)
Lemma round_half_even_mono x y :
  x <= y → (round_half_even x <= round_half_even y)%Z.
Proof.
  intros Hxy. pose proof (Qfloor_resp_le x y Hxy) as Hfloor.
  destruct (Z_lt_le_dec (Qfloor x) (Qfloor y)) as [Hlt|Hge].
  { pose proof (round_half_even_between x). pose proof (round_half_even_between y). lia. }
  assert (Qfloor y = Qfloor x) as Heq by lia.
  unfold round_half_even. cbv zeta. rewrite Heq.
  destruct (Qcompare_spec (x - inject_Z (Qfloor x)) (1 # 2)) as [Hx|Hx|Hx];
    destruct (Qcompare_spec (y - inject_Z (Qfloor x)) (1 # 2)) as [Hy|Hy|Hy];
    try destruct (Z.even (Qfloor x)); try lia; exfalso; lra.
Qed.

Lemma round2_mono x y : x <= y → round2 x <= round2 y.
Proof.
  intros Hxy. unfold round2.
  assert (round_half_even (x * 100) <= round_half_even (y * 100))%Z as Hz.
  { apply round_half_even_mono. lra. }
  rewrite Zle_Qle in Hz.
  set (a := inject_Z (round_half_even (x * 100))) in *.
  set (b := inject_Z (round_half_even (y * 100))) in *.
  assert (a / 100 == a * (1 # 100)) as -> by (unfold Qdiv; reflexivity).
  assert (b / 100 == b * (1 # 100)) as -> by (unfold Qdiv; reflexivity).
  lra.
Qed.

(** [np.argmax] finds the first position of the largest element. *)
Lemma argmax_from_first_maximum (l : list Q) best_i best i xs :
  l !! best_i = Some best →
  (∀ k x, xs !! k = Some x → l !! (i + k)%nat = Some x) →
  length l = (i + length xs)%nat →
  (∀ j x, (j < i)%nat → l !! j = Some x → x <= best) →
  (∀ j x, (j < best_i)%nat → l !! j = Some x → x < best) →
  l !! argmax_from best_i best i xs = Some (max_from best xs) ∧
  (∀ j x, l !! j = Some x → x <= max_from best xs) ∧
  (∀ j x, (j < argmax_from best_i best i xs)%nat → l !! j = Some x → x < max_from best xs).
Proof.
  revert best_i best i. induction xs as [|x xs IH]; intros best_i best i Hbest Hxs Hlen Hle Hlt.
  - simpl. split; [done|]. split; [|done].
    intros j y Hj. apply (Hle j); [|done]. apply lookup_lt_Some in Hj. simpl in Hlen. lia.
  - assert (l !! i = Some x) as Hi.
    { rewrite <-(Nat.add_0_r i). by apply Hxs. }
    simpl. destruct (Qle_bool x best) eqn:Hcmp.
    + apply Qle_bool_iff in Hcmp. apply IH; [done| | | |done].
      * intros k y Hk. replace (S i + k)%nat with (i + S k)%nat by lia. by apply Hxs.
      * simpl in Hlen. lia.
      * intros j y Hj Hy. destruct (decide (j = i)) as [->|Hne].
        -- rewrite Hi in Hy. by injection Hy as <-.
        -- apply (Hle j); [lia|done].
    + assert (best < x) as Hbx.
      { apply Qnot_le_lt. intros Hc. apply Qle_bool_iff in Hc. congruence. }
      apply IH; [done| | | |].
      * intros k y Hk. replace (S i + k)%nat with (i + S k)%nat by lia. by apply Hxs.
      * simpl in Hlen. lia.
      * intros j y Hj Hy. destruct (decide (j = i)) as [->|Hne].
        -- rewrite Hi in Hy. injection Hy as <-. apply Qle_refl.
        -- pose proof (Hle j y ltac:(lia) Hy). lra.
      * intros j y Hj Hy. pose proof (Hle j y Hj Hy). lra.
Qed.

Lemma np_argmax_first_maximum v c :
  np_argmax v = Ok c →
  ∃ top, np_max v = Ok top ∧ v !! c = Some top ∧
         (∀ j x, v !! j = Some x → x <= top) ∧
         (∀ j x, (j < c)%nat → v !! j = Some x → x < top).
Proof.
  destruct v as [|x xs]; [done|]. intros [= <-]. exists (max_from x xs).
  split; [done|]. apply (argmax_from_first_maximum (x :: xs) 0%nat x 1%nat xs).
  - done.
  - by intros k y Hk.
  - done.
  - intros [|j] y Hj Hy; [|lia]. injection Hy as <-. apply Qle_refl.
  - intros j y Hj. lia.
Qed.

Local Close Scope Q_scope.

(** ** When the analysis answers 200 *)




(** X11. An upload whose content type does not start with [image/] is answered
    with status 500 and the text of the 400 exception, whatever its bytes
    are: they are not decoded and the network is not run. *)
Theorem non_image_upload_is_never_decoded
    Image_open rgb_value resampled predict str w ct raw :
  String.prefix "image/" ct = false →
  analyze_image Image_open rgb_value resampled predict str w
    {| content_type := Some ct; contents := raw |}
    = Failed 500 ("Error: " +:+ str (HTTPException 400 "File must be an image")).
Proof.
  intros Hct. apply handler_Failed.
  by apply (non_image_raises _ _ _ _ _ _ ct).
Qed.

Lemma non_image_upload_is_never_decoded_witness :
  analyze_image decode_grey grey_to_rgb nearest fixed_predict no_text after_startup
    {| content_type := Some "application/pdf"; contents := [Byte.x25; Byte.x50] |}
    = Failed 500 ("Error: " +:+ no_text (HTTPException 400 "File must be an image")).
Proof.
  apply (non_image_upload_is_never_decoded decode_grey grey_to_rgb nearest fixed_predict
           no_text after_startup "application/pdf" [Byte.x25; Byte.x50]).
  reflexivity.
Defined.

(** ** What a successful answer holds *)

(** X12. In a successful answer the predicted class is the first index at which
    the prediction vector is largest: no entry exceeds the one there, and
    every earlier entry is strictly smaller. *)
Theorem predicted_class_is_first_maximum
    Image_open rgb_value resampled predict str w file code body :
  analyze_image Image_open rgb_value resampled predict str w file = Returned code body →
  ∃ img p top,
    Image_open (contents file) = Ok img ∧
    predict (model_layers w) (np_expand_dims_0 (preprocess rgb_value resampled img)) = Ok p ∧
    p !! predicted_class_index body = Some top ∧
    (∀ j x, p !! j = Some x → (x <= top)%Q) ∧
    (∀ j x, j < predicted_class_index body → p !! j = Some x → (x < top)%Q).
Proof.
  intros [_ Hbody]%handler_Returned.
  apply analyze_body_Ok in Hbody
    as (ct & img & p & c & top & d & m & _ & _ & Himg & Hp & Hc & Htop & _ & _ & ->).
  cbn [predicted_class_index].
  destruct (np_argmax_first_maximum p c Hc) as (top' & _ & Hat & Hmax & Hfirst).
  by exists img, p, top'.
Qed.

Lemma predicted_class_is_first_maximum_witness :
  ∃ img p top,
    decode_grey (contents grey_png) = Ok img ∧
    fixed_predict (model_layers after_startup)
      (np_expand_dims_0 (preprocess grey_to_rgb nearest img)) = Ok p ∧
    p !! predicted_class_index example_body = Some top ∧
    (∀ j x, p !! j = Some x → (x <= top)%Q) ∧
    (∀ j x, j < predicted_class_index example_body → p !! j = Some x → (x < top)%Q).
Proof.
  apply (predicted_class_is_first_maximum decode_grey grey_to_rgb nearest fixed_predict
           no_text after_startup grey_png 200 example_body).
  vm_compute; reflexivity.
Defined.

(** X13. In a successful answer no value of [all_probabilities] exceeds the
    field [confidence]. *)
Theorem confidence_dominates_probabilities
    Image_open rgb_value resampled predict str w file code body k v :
  analyze_image Image_open rgb_value resampled predict str w file = Returned code body →
  all_probabilities body !! k = Some v →
  (v <= confidence body)%Q.
Proof.
  intros [_ Hbody]%handler_Returned.
  apply analyze_body_Ok in Hbody
    as (ct & img & p & c & top & d & m & _ & _ & _ & _ & Hc & Htop & _ & Hm & ->).
  cbn [all_probabilities confidence].
  intros (i & x & _ & Hx & ->)%(probabilities_binding p m Hm).
  destruct (np_argmax_first_maximum p c Hc) as (top' & Htop' & _ & Hmax & _).
  assert (top' = top) as -> by congruence.
  apply round2_mono. pose proof (Hmax i x Hx). lra.
Qed.

Lemma confidence_dominates_probabilities_witness :
  ((312 # 100) <= confidence example_body)%Q.
Proof.
  apply (confidence_dominates_probabilities decode_grey grey_to_rgb nearest fixed_predict
           no_text after_startup grey_png 200 example_body "Late_blight" (312 # 100)%Q).
  - vm_compute; reflexivity.
  - vm_compute; reflexivity.
Defined.

Lemma round2_of_unit_interval x :
  in_unit_interval x → (0 <= round2 (x * 100))%Q ∧ (round2 (x * 100) <= 100)%Q.
Proof.
  intros [Hlo Hhi]. split.
  - apply Qle_trans with (round2 0); [vm_compute; discriminate|]. apply round2_mono. lra.
  - apply Qle_trans with (round2 100); [|vm_compute; discriminate]. apply round2_mono. lra.
Qed.

(** X14. When the forward pass returns probabilities (numbers from 0 to 1), the
    confidence and every value of [all_probabilities] in a successful
    answer lie between 0 and 100. *)
Theorem percentages_within_0_100
    Image_open rgb_value resampled predict str w file code body :
  (∀ model batch p, predict model batch = Ok p → Forall in_unit_interval p) →
  analyze_image Image_open rgb_value resampled predict str w file = Returned code body →
  (0 <= confidence body)%Q ∧ (confidence body <= 100)%Q ∧
  ∀ k v, all_probabilities body !! k = Some v → (0 <= v)%Q ∧ (v <= 100)%Q.
Proof.
  intros Hunit [_ Hbody]%handler_Returned.
  apply analyze_body_Ok in Hbody
    as (ct & img & p & c & top & d & m & _ & _ & _ & Hp & Hc & Htop & _ & Hm & ->).
  cbn [all_probabilities confidence].
  apply Hunit in Hp. rewrite Forall_forall in Hp.
  pose proof (np_argmax_max _ _ _ Hc Htop) as Hat.
  assert (∀ i x, p !! i = Some x → (0 <= round2 (x * 100))%Q ∧ (round2 (x * 100) <= 100)%Q)
    as Hrange.
  { intros i x Hx. apply round2_of_unit_interval, Hp. by eapply list_elem_of_lookup_2. }
  split; [by eapply Hrange|]. split; [by eapply Hrange|].
  intros k v (i & x & _ & Hx & ->)%(probabilities_binding p m Hm). by eapply Hrange.
Qed.

Lemma percentages_within_0_100_witness :
  (0 <= confidence example_body)%Q ∧ (confidence example_body <= 100)%Q ∧
  ∀ k v, all_probabilities example_body !! k = Some v → (0 <= v)%Q ∧ (v <= 100)%Q.
Proof.
  apply (percentages_within_0_100 decode_grey grey_to_rgb nearest fixed_predict
           no_text after_startup grey_png 200 example_body).
  - intros model batch p [= <-]. unfold fixed_prediction.
    repeat constructor; vm_compute; discriminate.
  - vm_compute; reflexivity.
Defined.

(** * The root endpoint and the API test suite *)

(** X15. [GET /] answers 200 with the parameter count of the model as built,
    the count [/health] reports too, whatever the disk holds: loading never
    changes what the root endpoint says. *)
Theorem root_ignores_loading shape_text fs model :
  root shape_text (startup fs model).2 = root shape_text (built model) ∧
  (∃ body, root shape_text (startup fs model).2 = Returned 200 body ∧
           parameters (root_model_info body) = count_params model) ∧
  ∃ hbody, health_check (startup fs model).2 = Returned 200 hbody ∧
           model_params hbody = count_params model.
Proof.
  assert (count_params (model_layers (startup fs model).2) = count_params model) as Hcount.
  { apply count_params_signature, startup_signatures. }
  unfold root, health_check. rewrite Hcount. split; [done|]. split; by eexists.
Qed.

(** A path that no route matches, neither as it is nor with the slash at
    its end added or removed, is answered 404 under every method. *)
Lemma unregistered_path_not_found shape_text w m path :
  find_route path = None →
  find_route (redirect_path path) = None →
  status_without_upload shape_text w m path = 404.
Proof.
  intros Hpath Hother. unfold status_without_upload, route.
  rewrite Hpath, Hother. by rewrite andb_false_r.
Qed.

(** The pages of the framework are served, also under HEAD; a handler's
    path under another method is answered 405, the analysis without an
    upload 422, and a path that differs from a route by the slash at its end
    is redirected. *)
Example statuses_of_other_requests shape_text w :
  status_without_upload shape_text w GET "/docs" = 200 ∧
  status_without_upload shape_text w HEAD "/redoc" = 200 ∧
  status_without_upload shape_text w GET "/openapi.json" = 200 ∧
  status_without_upload shape_text w HEAD "/health" = 405 ∧
  status_without_upload shape_text w GET "/api/analyze" = 405 ∧
  status_without_upload shape_text w POST "/api/analyze" = 422 ∧
  status_without_upload shape_text w GET "/health/" = 307 ∧
  status_without_upload shape_text w GET "/docs/" = 307.
Proof. repeat split; vm_compute; reflexivity. Qed.

(** X16. Against this service the API test suite passes two of its four tests,
    whatever the state of the model: the root and health requests get 200,
    while [/model-info] and [/predict] are not registered and get 404. *)
Theorem api_test_suite_passes_two_of_four shape_text w :
  run_all_tests (status_without_upload shape_text w)
    = [ ("Root Endpoint", true); ("Health Check", true);
        ("Model Info", false); ("Prediction", false) ] ∧
  total_passed (run_all_tests (status_without_upload shape_text w)) = 2 ∧
  status_without_upload shape_text w GET "/model-info" = 404 ∧
  status_without_upload shape_text w POST "/predict" = 404.
Proof.
  assert (status_without_upload shape_text w GET "/model-info" = 404) as Hinfo.
  { apply unregistered_path_not_found; vm_compute; reflexivity. }
  assert (status_without_upload shape_text w POST "/predict" = 404) as Hpredict.
  { apply unregistered_path_not_found; vm_compute; reflexivity. }
  assert (run_all_tests (status_without_upload shape_text w)
          = [ ("Root Endpoint", true); ("Health Check", true);
              ("Model Info", false); ("Prediction", false) ]) as Hrun.
  { unfold run_all_tests, test_root, test_health, test_model_info, test_prediction.
    cbn [fmap list_fmap fst snd]. rewrite Hinfo, Hpredict. reflexivity. }
  rewrite Hrun. done.
Qed.

(** * The callers of the analysis *)

(** ** Sorting by decreasing value *)

Lemma insert_desc_Permutation x l : insert_desc x l ≡ₚ x :: l.
Proof.
  induction l as [|y l IH]; [done|]. simpl.
  destruct (Qle_bool y.2 x.2); [done|]. rewrite IH. apply Permutation_swap.
Qed.

Lemma sorted_by_value_desc_Permutation l : sorted_by_value_desc l ≡ₚ l.
Proof.
  induction l as [|x l IH]; [done|]. simpl.
  by rewrite insert_desc_Permutation, IH.
Qed.

Lemma insert_desc_sorted x l :
  Sorted.StronglySorted desc l → Sorted.StronglySorted desc (insert_desc x l).
Proof.
  induction 1 as [|y l Hsorted IH Hy]; simpl.
  - repeat constructor.
  - destruct (Qle_bool y.2 x.2) eqn:Hcmp.
    + apply Qle_bool_iff in Hcmp. constructor; [by constructor|].
      constructor; [done|]. eapply Forall_impl; [done|].
      intros z Hz. unfold desc in *. by eapply Qle_trans.
    + assert (x.2 < y.2)%Q as Hlt.
      { apply Qnot_le_lt. intros Hc. apply Qle_bool_iff in Hc. congruence. }
      constructor; [done|]. rewrite insert_desc_Permutation.
      constructor; [|done]. unfold desc. by apply Qlt_le_weak.
Qed.

Lemma sorted_by_value_desc_sorted l : Sorted.StronglySorted desc (sorted_by_value_desc l).
Proof.
  induction l as [|x l IH]; [constructor|]. by apply insert_desc_sorted.
Qed.

(** ** The bindings of a mapping built by the analysis *)

Lemma elem_of_items probs k v :
  (k, v) ∈ items probs ↔ k ∈ class_names ∧ probs !! k = Some v.
Proof.
  unfold items. rewrite list_elem_of_omap. split.
  - intros (k' & Hk' & Hv). destruct (probs !! k') as [v'|] eqn:Hp; [|done].
    injection Hv as <- <-. done.
  - intros [Hk Hv]. exists k. by rewrite Hv.
Qed.

Lemma length_omap_total {A B} (f : A → option B) l :
  (∀ x, x ∈ l → is_Some (f x)) → length (omap f l) = length l.
Proof.
  induction l as [|x l IH]; intros Hall; [done|]. simpl.
  destruct (Hall x) as [y ->]; [left|]. simpl. f_equal. apply IH.
  intros z Hz. apply Hall. by right.
Qed.

(** What the fields of a successful answer are made of. *)
Lemma answer_fields Image_open rgb_value resampled predict str w file code body :
  analyze_image Image_open rgb_value resampled predict str w file = Returned code body →
  code = 200 ∧
  ∃ p c top,
    np_argmax p = Ok c ∧ np_max p = Ok top ∧
    class_names !! c = Some (disease body) ∧
    confidence body = round2 (top * 100) ∧
    predicted_class_index body = c ∧
    dict_comprehension (probability_entry p) (seq 0 (length class_names)) ∅
      = Ok (all_probabilities body).
Proof.
  intros [-> Hbody]%handler_Returned. split; [done|].
  apply analyze_body_Ok in Hbody
    as (ct & img & p & c & top & d & m & _ & _ & _ & _ & Hc & Htop & Hd & Hm & ->).
  by exists p, c, top.
Qed.

Lemma answer_confidence_bound Image_open rgb_value resampled predict str w file code body :
  analyze_image Image_open rgb_value resampled predict str w file = Returned code body →
  all_probabilities body !! disease body = Some (confidence body) ∧
  ∀ k v, all_probabilities body !! k = Some v → (v <= confidence body)%Q.
Proof.
  intros (_ & p & c & top & Hc & Htop & Hd & -> & _ & Hm)%answer_fields.
  destruct (np_argmax_first_maximum p c Hc) as (top' & Htop' & Hat & Hmax & _).
  assert (top' = top) as -> by congruence. split.
  - destruct (probabilities_lookup p _ Hm c _ Hd) as (x & Hx & ->). congruence.
  - intros k v (i & x & _ & Hx & ->)%(probabilities_binding p _ Hm).
    apply round2_mono. pose proof (Hmax i x Hx). lra.
Qed.

(** X17. The three entries the test scripts show for a successful answer: there
    are exactly three, each a binding of [all_probabilities], in order of
    decreasing value; the first carries the value of the field
    [confidence], and every binding that is not shown has a value not above
    the third. *)
Theorem top_three_leads_with_confidence
    Image_open rgb_value resampled predict str w file code body :
  analyze_image Image_open rgb_value resampled predict str w file = Returned code body →
  ∃ e1 e2 e3,
    top_three (all_probabilities body) = [e1; e2; e3] ∧
    (e1.2 == confidence body)%Q ∧
    (e2.2 <= e1.2)%Q ∧ (e3.2 <= e2.2)%Q ∧
    (∀ e, e ∈ [e1; e2; e3] → all_probabilities body !! e.1 = Some e.2) ∧
    (∀ k v, all_probabilities body !! k = Some v →
            (k, v) ∈ [e1; e2; e3] ∨ (v <= e3.2)%Q).
Proof.
  intros Hanswer.
  destruct (answer_confidence_bound _ _ _ _ _ _ _ _ _ Hanswer) as [Hconf Hbound].
  apply answer_fields in Hanswer as (_ & p & c & top & Hc & _ & Hd & _ & _ & Hm).
  set (m := all_probabilities body) in *.
  pose proof (sorted_by_value_desc_Permutation (items m)) as Hperm.
  pose proof (sorted_by_value_desc_sorted (items m)) as Hsorted.
  assert (length (sorted_by_value_desc (items m)) = 10) as Hlen.
  { rewrite Hperm. unfold items. rewrite length_omap_total; [done|].
    intros k [i Hk]%list_elem_of_lookup_1.
    destruct (probabilities_lookup p m Hm i k Hk) as (x & _ & ->). by eexists. }
  unfold top_three.
  destruct (sorted_by_value_desc (items m)) as [|e1 [|e2 [|e3 rest]]]; [done..|].
  exists e1, e2, e3. split; [done|].
  apply Sorted.StronglySorted_inv in Hsorted as [Hsorted1 H1].
  apply Sorted.StronglySorted_inv in Hsorted1 as [Hsorted2 H2].
  apply Sorted.StronglySorted_inv in Hsorted2 as [_ H3].
  rewrite Forall_forall in H1, H2, H3.
  assert (∀ e, e ∈ e1 :: e2 :: e3 :: rest → m !! e.1 = Some e.2) as Hbinding.
  { intros [k v] He. rewrite Hperm in He. by apply elem_of_items in He as [_ ?]. }
  split; [|split; [|split; [|split]]].
  - apply Qle_antisym.
    + apply (Hbound e1.1). apply Hbinding. left.
    + assert ((disease body, confidence body) ∈ e1 :: e2 :: e3 :: rest) as Hin.
      { rewrite Hperm. apply elem_of_items. split; [|done].
        by eapply list_elem_of_lookup_2. }
      apply elem_of_cons in Hin as [<-|Hin]; [apply Qle_refl|].
      by apply (H1 _ Hin).
  - apply (H1 e2). left.
  - apply (H2 e3). left.
  - intros e He. apply Hbinding.
    apply elem_of_cons in He as [->|He]; [left|right].
    apply elem_of_cons in He as [->|He]; [left|right].
    apply elem_of_cons in He as [->|He]; [left|]. by apply elem_of_nil in He.
  - intros k v Hkv.
    assert ((k, v) ∈ e1 :: e2 :: e3 :: rest) as Hin.
    { rewrite Hperm. apply elem_of_items. split; [|done].
      apply elem_of_dom_2 in Hkv. rewrite (probabilities_dom p m Hm) in Hkv.
      by apply elem_of_list_to_set in Hkv. }
    apply elem_of_cons in Hin as [->|Hin]; [left; left|].
    apply elem_of_cons in Hin as [->|Hin]; [left; right; left|].
    apply elem_of_cons in Hin as [->|Hin]; [left; right; right; left|].
    right. by apply (H3 _ Hin).
Qed.

Lemma top_three_leads_with_confidence_witness :
  ∃ e1 e2 e3,
    top_three (all_probabilities example_body) = [e1; e2; e3] ∧
    (e1.2 == confidence example_body)%Q ∧
    (e2.2 <= e1.2)%Q ∧ (e3.2 <= e2.2)%Q ∧
    (∀ e, e ∈ [e1; e2; e3] → all_probabilities example_body !! e.1 = Some e.2) ∧
    (∀ k v, all_probabilities example_body !! k = Some v →
            (k, v) ∈ [e1; e2; e3] ∨ (v <= e3.2)%Q).
Proof.
  apply (top_three_leads_with_confidence decode_grey grey_to_rgb nearest fixed_predict
           no_text after_startup grey_png 200 example_body).
  vm_compute; reflexivity.
Defined.

(** For the example answer the three entries are these. *)
Example top_three_of_example :
  top_three (all_probabilities example_body)
    = [ ("Healthy", (7500 # 100)%Q); ("Bacterial_spot", (1250 # 100)%Q);
        ("Early_blight", (625 # 100)%Q) ].
Proof. vm_compute; reflexivity. Qed.

(** When the two largest probabilities round to the same percentage, the
    first entry shown can carry another label than the predicted disease:
    the sort is by rounded value and keeps the class order among equals. *)
Example top_entry_can_differ_from_disease :
  ∃ body,
    analyze_image decode_grey grey_to_rgb nearest close_predict no_text after_startup grey_png
      = Returned 200 body ∧
    disease body = "Early_blight" ∧
    head (top_three (all_probabilities body)) = Some ("Bacterial_spot", (4000 # 100)%Q).
Proof.
  eexists. split; [vm_compute; reflexivity|]. split; vm_compute; reflexivity.
Qed.

(** ** The upload test *)



(** The answer has none of the other fields the test reads either. *)
Example analysis_json_lacks_test_fields body :
  analysis_json body !! "raw_prediction" = None ∧
  analysis_json body !! "is_diseased" = None ∧
  dom (analysis_json body)
    = list_to_set [ "disease"; "confidence"; "is_healthy"; "predicted_class_index";
                    "all_probabilities"; "message"; "model_source" ].
Proof.
  unfold analysis_json. split; [|split].
  - rewrite !lookup_insert_ne by done. apply lookup_empty.
  - rewrite !lookup_insert_ne by done. apply lookup_empty.
  - rewrite !dom_insert_L, dom_empty_L. set_solver.
Qed.

(** ** The confidence bar *)

Local Open Scope Q_scope.

Lemma py_int_of_percentage c :
  0 <= c → c <= 100 →
  (0 <= py_int (inject_Z 40 * c / 100) <= 40)%Z ∧
  py_int (inject_Z 40 * c / 100) = Qfloor (c * (2 # 5)).
Proof.
  intros Hlo Hhi.
  assert (inject_Z 40 * c / 100 == c * (2 # 5)) as Heq.
  { change (inject_Z 40) with 40. field. }
  unfold py_int. rewrite (proj2 (Qle_bool_iff 0 _)) by (rewrite Heq; lra).
  rewrite Heq. split; [|done]. split.
  - change 0%Z with (Qfloor 0). apply Qfloor_resp_le. lra.
  - change 40%Z with (Qfloor 40). apply Qfloor_resp_le. lra.
Qed.

Local Close Scope Q_scope.

(** X19. For a confidence between 0 and 100 the bar the upload test draws has
    exactly 40 cells, of which the first [floor(0.4 * confidence)] are
    filled. *)
Theorem confidence_bar_has_forty_cells c :
  (0 <= c)%Q → (c <= 100)%Q →
  length (bar 40 (py_int (inject_Z 40 * c / 100)%Q)) = 40 ∧
  bar 40 (py_int (inject_Z 40 * c / 100)%Q)
    = replicate (Z.to_nat (Qfloor (c * (2 # 5))%Q)) true
      ++ replicate (40 - Z.to_nat (Qfloor (c * (2 # 5))%Q)) false.
Proof.
  intros Hlo Hhi. destruct (py_int_of_percentage c Hlo Hhi) as [Hrange Heq].
  unfold bar. rewrite length_app, !length_replicate. split; [lia|].
  rewrite <-Heq. do 2 f_equal. lia.
Qed.

Lemma confidence_bar_has_forty_cells_witness :
  length (bar 40 (py_int (inject_Z 40 * (7550 # 100) / 100)%Q)) = 40 ∧
  bar 40 (py_int (inject_Z 40 * (7550 # 100) / 100)%Q)
    = replicate (Z.to_nat (Qfloor ((7550 # 100) * (2 # 5))%Q)) true
      ++ replicate (40 - Z.to_nat (Qfloor ((7550 # 100) * (2 # 5))%Q)) false.
Proof.
  apply (confidence_bar_has_forty_cells (7550 # 100)%Q); vm_compute; discriminate.
Defined.

(** A confidence above 100 makes the bar longer than 40 cells. *)
Example bar_overflows : length (bar 40 (py_int (inject_Z 40 * 150 / 100)%Q)) = 60.
Proof. reflexivity. Qed.

(** ** Entries of equal value *)

Lemma filter_insert_desc (v : Q) x l :
  filter (λ e, Qeq_bool e.2 v = true) (insert_desc x l)
    = if Qeq_bool x.2 v then x :: filter (λ e, Qeq_bool e.2 v = true) l
      else filter (λ e, Qeq_bool e.2 v = true) l.
Proof.
  induction l as [|y l IH]; simpl.
  - rewrite filter_cons, filter_nil. by destruct (Qeq_bool x.2 v) eqn:Hx; case_decide.
  - destruct (Qle_bool y.2 x.2) eqn:Hcmp.
    + rewrite (filter_cons _ x). by destruct (Qeq_bool x.2 v) eqn:Hx; case_decide.
    + rewrite !(filter_cons _ y), IH.
      destruct (Qeq_bool x.2 v) eqn:Hx; [|done].
      assert (Qeq_bool y.2 v = false) as Hy.
      { destruct (Qeq_bool y.2 v) eqn:Hy; [|done].
        apply Qeq_bool_iff in Hx, Hy.
        assert (Qle_bool y.2 x.2 = true); [|congruence].
        apply Qle_bool_iff. rewrite Hx, Hy. apply Qle_refl. }
      rewrite Hy. by case_decide.
Qed.

(** X20. The sorted list from which the test scripts take the three best
    classes keeps entries of equal value in the order of the class list:
    for every value, the entries carrying it come in the same order before
    and after sorting. *)
Theorem equal_values_keep_class_order (probs : gmap string Q) (v : Q) :
  filter (λ e, Qeq_bool e.2 v = true) (sorted_by_value_desc (items probs))
    = filter (λ e, Qeq_bool e.2 v = true) (items probs).
Proof.
  induction (items probs) as [|x l IH]; [done|].
  cbn [sorted_by_value_desc foldr]. fold (sorted_by_value_desc l).
  rewrite filter_insert_desc, IH, filter_cons.
  by destruct (Qeq_bool x.2 v) eqn:Hx; case_decide.
Qed.
